(** * The orchestration core of the pharmacy assistant

    A shallow embedding of [app/agents/base.py] and
    [app/agents/orchestrator.py]: the request and response envelopes, the
    tool boundary, the model call, the routing procedure, the dispatch
    procedure and the workflow engine, followed by the properties the
    specification states about them.

    Python code is embedded as functions in a state-and-exception monad.
    Everything the core does not own (the model provider, the [json]
    module, the clock, [uuid4], the structured logger, the behaviour of the
    registered agents and of tool handlers) is supplied by a [World] record
    or passed in as an argument, so that every statement is quantified over
    all behaviours of these collaborators. *)

From Stdlib Require Import ZArith QArith String Ascii.
From stdpp Require Import gmap strings list fin_maps pretty.

Set Warnings "-register-all".
Set Default Proof Using "Type".

(** ** Python values *)

(** [AgentOutput] (base.py, lines 28-38).  The record is parametric in the
    type of the values stored in [data] and [metadata] because a response
    object is itself stored as a value: the workflow engine puts the step
    results into the [data] of its own response. *)
Module AgentOutput.
Record t_ (V : Type) := mk {
  success : bool;
  message_id : string;
  timestamp : Q;
  data : gmap string V;
  error : option string;
  error_code : option string;
  metadata : gmap string V;
  confidence : Q;
  escalation_needed : bool
}.
Arguments mk {V}.
Arguments success {V}.
Arguments message_id {V}.
Arguments timestamp {V}.
Arguments data {V}.
Arguments error {V}.
Arguments error_code {V}.
Arguments metadata {V}.
Arguments confidence {V}.
Arguments escalation_needed {V}.

(** [result.metadata[k] = v] *)
Definition set_metadata {V} (k : string) (v : V) (o : t_ V) : t_ V :=
  mk (success o) (message_id o) (timestamp o) (data o) (error o)
     (error_code o) (<[k := v]> (metadata o)) (confidence o)
     (escalation_needed o).
End AgentOutput.

(** The values that inhabit [Dict[str, Any]]: what [json.loads] produces
    (numbers are integers here), plus response objects.  Dictionaries are
    finite maps keyed by strings; their equality is Python's [==]. *)
Inductive val :=
| VNone
| VBool (b : bool)
| VInt (n : Z)
| VStr (s : string)
| VList (l : list val)
| VDict (d : gmap string val)
| VOutput (o : AgentOutput.t_ val).

Abbreviation AgentOutput := (AgentOutput.t_ val).

(** [AgentInput] (base.py, lines 17-25). *)
Module AgentInput.
Record t := mk {
  user_id : option string;
  conversation_id : option string;
  session_id : option string;
  message_id : string;
  timestamp : Q;
  payload : gmap string val;
  metadata : gmap string val
}.

(** [input_data.payload = p] *)
Definition set_payload (p : gmap string val) (x : t) : t :=
  mk (user_id x) (conversation_id x) (session_id x) (message_id x)
     (timestamp x) p (metadata x).
End AgentInput.

Abbreviation AgentInput := AgentInput.t.

(** Truth value of an object, as tested by [if x:] and [not x]. *)
Definition truthy (v : val) : bool :=
  match v with
  | VNone => false
  | VBool b => b
  | VInt n => negb (n =? 0)%Z
  | VStr s => negb (String.eqb s "")
  | VList l => match l with [] => false | _ => true end
  | VDict d => negb (bool_decide (d = ∅))
  | VOutput _ => true
  end.

(** Whether an object can be a dictionary key: lists, dictionaries and
    (non-frozen) pydantic models cannot. *)
Definition hashable (v : val) : bool :=
  match v with
  | VList _ | VDict _ | VOutput _ => false
  | _ => true
  end.

(** [type(v).__name__] *)
Definition type_name (v : val) : string :=
  match v with
  | VNone => "NoneType"
  | VBool _ => "bool"
  | VInt _ => "int"
  | VStr _ => "str"
  | VList _ => "list"
  | VDict _ => "dict"
  | VOutput _ => "AgentOutput"
  end.

(** [d.get(k, dflt)] on a dictionary. *)
Definition dict_get (d : gmap string val) (k : string) (dflt : val) : val :=
  default dflt (d !! k).

Definition opt_val (o : option string) : val :=
  match o with
  | Some s => VStr s
  | None => VNone
  end.

(** ** Exceptions and outcomes *)

(** Only classes derived from [Exception] are modelled: these are the ones
    [except Exception] catches.  Interpreter-exit and task-cancellation
    signals derive from [BaseException] alone and are outside the model. *)
Inductive exn_class :=
| TypeError
| AttributeError
| KeyError
| IndexError
| JSONDecodeError
| OtherError (name : string).

(** An exception object; [exn_str e] is [str(e)]. *)
Record exn := Exn { exn_cls : exn_class; exn_str : string }.

Inductive outcome (A : Type) :=
| Ret (a : A)
| Raise (e : exn).
Arguments Ret {A}.
Arguments Raise {A}.

(** ** The model provider's data *)

Record chat_message := ChatMessage { role : string; content : string }.

Module Params.
(** The keyword arguments of [client.chat.completions.create]. *)
Record t := mk {
  model : string;
  messages : list chat_message;
  temperature : Q;
  max_tokens : Z;
  tools : option (list val);
  response_format : option (gmap string string)
}.
End Params.

Module Completion.
Record choice := Choice {
  message_content : option string;
  message_tool_calls : option val
}.
Record usage_t := Usage {
  prompt_tokens : Z;
  completion_tokens : Z;
  total_tokens : Z
}.
Record t := mk { choices : list choice; usage : option usage_t }.
End Completion.

Module LLMResult.
(** The dictionary returned by [call_llm]; its keys are fixed. *)
Record t := mk {
  success : bool;
  content : option string;
  tool_calls : option val;
  usage : option Completion.usage_t;
  error : option string
}.
End LLMResult.

(** ** State *)

Inductive event :=
| EvLLM (params : Params.t)
| EvAgent (agent_type : val) (input_data : AgentInput)
| EvTool (name : string) (kwargs : gmap string val)
| EvLog (name : string) (fields : gmap string val).

(** [clock] counts the clock readings made so far and [uuids] the
    identifiers drawn so far; [trace] lists the calls made to collaborators,
    oldest first; [heap] holds the request objects that are passed by
    reference. *)
Record state := State {
  clock : nat;
  uuids : nat;
  trace : list event;
  heap : gmap nat AgentInput
}.

Definition M (A : Type) : Type := state -> outcome A * state.

Definition ret {A} (a : A) : M A := fun st => (Ret a, st).

Definition raise {A} (e : exn) : M A := fun st => (Raise e, st).

Definition bind {A B} (m : M A) (k : A -> M B) : M B :=
  fun st =>
    match m st with
    | (Ret a, st1) => k a st1
    | (Raise e, st1) => (Raise e, st1)
    end.

(** [try: m except C as e: h e], where [catches e] tells whether [e] is
    an instance of [C].  Effects made before the exception are kept. *)
Definition try_except_if {A} (catches : exn -> bool) (m : M A)
    (h : exn -> M A) : M A :=
  fun st =>
    match m st with
    | (Ret a, st1) => (Ret a, st1)
    | (Raise e, st1) => if catches e then h e st1 else (Raise e, st1)
    end.

(** [try: m except Exception as e: h e] *)
Definition try_except {A} (m : M A) (h : exn -> M A) : M A :=
  try_except_if (fun _ => true) m h.

Declare Scope py_scope.
Delimit Scope py_scope with py.
Notation "'let*' x ':=' c 'in' k" := (bind c (fun x => k))
  (at level 10, x name, c at level 100, k at level 200) : py_scope.
Notation "'exec' c 'in' k" := (bind c (fun _ => k))
  (at level 10, c at level 100, k at level 200) : py_scope.
Local Open Scope py_scope.

Definition is_JSONDecodeError (e : exn) : bool :=
  match exn_cls e with
  | JSONDecodeError => true
  | _ => false
  end.

(** ** Collaborators *)

(** What the core calls but does not own.  The functions that stand for
    calls to a service take the current state, so that their answers may
    depend on everything that happened before. *)
Record World := {
  (** [json.loads]; [None] stands for [json.JSONDecodeError] *)
  json_loads : string -> option val;
  (** [json.dumps]; [None] stands for the [TypeError] raised on an object
      that is not serializable *)
  json_dumps : val -> option string;
  (** [repr] of lists, dictionaries and objects *)
  py_repr : val -> string;
  (** [datetime.isoformat] *)
  isoformat : Q -> string;
  (** the n-th reading of the clock, in seconds *)
  time_at : nat -> Q;
  (** the n-th identifier handed out by [uuid.uuid4] *)
  uuid_at : nat -> string;
  (** [client.chat.completions.create] *)
  completions_create : Params.t -> state -> outcome Completion.t;
  (** the structured logger; [Some e] when the call raises [e] *)
  logger_emit : string -> gmap string val -> state -> option exn
}.

(** A registered agent, seen through [process]: what it answers on a
    request, in the state in which it is called.  The agents of the
    repository read their input and never assign to it, and what they draw
    from the clock or [uuid4] is theirs: [time_at] and [uuid_at] enumerate
    the readings and identifiers the orchestrator itself obtains. *)
Abbreviation Agent := (AgentInput -> state -> outcome AgentOutput).

Module AgentTool.
(** [AgentTool] (base.py, lines 41-63). *)
Record t := mk {
  name : string;
  description : string;
  handler : gmap string val -> state -> outcome val;
  parameters : val
}.
End AgentTool.

Module BaseAgent.
(** The attributes that [BaseAgent.__init__] sets (base.py, lines 78-83). *)
Record t := mk {
  agent_type : string;
  system_prompt : string;
  model : string;
  temperature : Q;
  max_tokens : Z;
  tools : list AgentTool.t
}.
End BaseAgent.

Module ToolCall.
(** A tool invocation requested by the model: [tool_call.function.name]
    and [tool_call.function.arguments]. *)
Record t := mk { name : string; arguments : string }.
End ToolCall.

(** ** Primitive effects *)

Definition advance_clock (st : state) : state :=
  State (S (clock st)) (uuids st) (trace st) (heap st).

Definition advance_uuids (st : state) : state :=
  State (clock st) (S (uuids st)) (trace st) (heap st).

Definition record_event (ev : event) (st : state) : state :=
  State (clock st) (uuids st) (trace st ++ [ev]) (heap st).

Definition set_heap (h : gmap nat AgentInput) (st : state) : state :=
  State (clock st) (uuids st) (trace st) h.

(** [time.time()] and [datetime.utcnow()]: one more reading of the clock. *)
Definition time_time (W : World) : M Q :=
  fun st => (Ret (time_at W (clock st)), advance_clock st).

Definition utcnow (W : World) : M Q := time_time W.

(** [str(uuid.uuid4())] *)
Definition uuid4 (W : World) : M string :=
  fun st => (Ret (uuid_at W (uuids st)), advance_uuids st).

(** Reading the object behind a reference.  A reference that designates no
    object cannot be written in Python; the model raises on it. *)
Definition load (r : nat) : M AgentInput :=
  fun st =>
    match heap st !! r with
    | Some x => (Ret x, st)
    | None => (Raise (Exn (OtherError "ReferenceError") "no such object"), st)
    end.

(** Writing the attributes of the object behind a reference. *)
Definition store (r : nat) (x : AgentInput) : M unit :=
  fun st => (Ret tt, set_heap (<[r := x]> (heap st)) st).

(** A call of the structured logger. *)
Definition logger_call (W : World) (name : string)
    (fields : gmap string val) : M unit :=
  fun st =>
    match logger_emit W name fields st with
    | Some e => (Raise e, st)
    | None => (Ret tt, record_event (EvLog name fields) st)
    end.

(** [await agent.process(input_data)] *)
Definition call_agent (agent_type : val) (agent : Agent)
    (input_data : AgentInput) : M AgentOutput :=
  fun st => (agent input_data st, record_event (EvAgent agent_type input_data) st).

(** [await self.client.chat.completions.create], applied to the keyword
    arguments [params] *)
Definition call_provider (W : World) (params : Params.t) : M Completion.t :=
  fun st => (completions_create W params st, record_event (EvLLM params) st).

(** ** Python operations on values *)

(** [int(x)] on a number: truncation towards zero. *)
Definition py_int (x : Q) : Z := Z.quot (Qnum x) (Zpos (Qden x)).

(** [int((t1 - t0) * 1000)] *)
Definition latency_ms (t0 t1 : Q) : Z := py_int ((t1 - t0) * 1000).

(** [str(v)], as used by f-strings. *)
Definition py_str (W : World) (v : val) : string :=
  match v with
  | VNone => "None"
  | VBool true => "True"
  | VBool false => "False"
  | VInt n => pretty n
  | VStr s => s
  | _ => py_repr W v
  end.

(** [v.get(k, dflt)]: only dictionaries have a [get] method. *)
Definition py_get (v : val) (k : string) (dflt : val) : M val :=
  match v with
  | VDict d => ret (dict_get d k dflt)
  | _ => raise (Exn AttributeError
                  ("'" +:+ type_name v +:+ "' object has no attribute 'get'"))
  end.

(** [d[k]] on a dictionary. *)
Definition dict_index (d : gmap string val) (k : string) : M val :=
  match d !! k with
  | Some v => ret v
  | None => raise (Exn KeyError ("'" +:+ k +:+ "'"))
  end.

(** The dictionary display [{**a, **b}]: the entries of [b] win. *)
Definition unpack_merge (a : gmap string val) (b : val) : M (gmap string val) :=
  match b with
  | VDict d => ret (d ∪ a)
  | _ => raise (Exn TypeError ("'" +:+ type_name b +:+ "' object is not a mapping"))
  end.

Definition unhashable (v : val) : exn :=
  Exn TypeError ("unhashable type: '" +:+ type_name v +:+ "'").

(** [json.loads(s)]; the argument is [None] when the model's message has no
    content. *)
Definition json_loads_py (W : World) (s : option string) : M val :=
  match s with
  | None =>
      raise (Exn TypeError
        "the JSON object must be str, bytes or bytearray, not NoneType")
  | Some s =>
      match json_loads W s with
      | Some v => ret v
      | None => raise (Exn JSONDecodeError "Expecting value")
      end
  end.

(** [json.dumps(v)] *)
Definition json_dumps_py (W : World) (v : val) : M string :=
  match json_dumps W v with
  | Some s => ret s
  | None =>
      raise (Exn TypeError
        ("Object of type " +:+ type_name v +:+ " is not JSON serializable"))
  end.

(** ** Envelope constructors *)

(** [AgentOutput(success=.., data=.., error=.., error_code=.., metadata=..)]:
    the message identifier and the timestamp come from the default
    factories, confidence and escalation keep their defaults. *)
Definition new_AgentOutput (W : World) (success : bool)
    (data : gmap string val) (error error_code : option string)
    (metadata : gmap string val) : M AgentOutput :=
  let* message_id := uuid4 W in
  let* timestamp := utcnow W in
  ret (AgentOutput.mk success message_id timestamp data error error_code
         metadata 1 false).

(** [AgentInput(user_id=.., conversation_id=.., payload=..)] *)
Definition new_AgentInput (W : World) (user_id conversation_id : option string)
    (payload : gmap string val) : M AgentInput :=
  let* message_id := uuid4 W in
  let* timestamp := utcnow W in
  ret (AgentInput.mk user_id conversation_id None message_id timestamp
         payload ∅).

(** ** base.py *)

(** [AgentTool.execute] (lines 50-52), called with unpacked keyword
    arguments: what is unpacked must be a mapping. *)
Definition AgentTool_execute (tool : AgentTool.t) (arguments : val) : M val :=
  match arguments with
  | VDict kwargs =>
      fun st => (AgentTool.handler tool kwargs st,
                 record_event (EvTool (AgentTool.name tool) kwargs) st)
  | _ =>
      raise (Exn TypeError
        ("argument after ** must be a mapping, not " +:+ type_name arguments))
  end.

(** [AgentTool.to_openai_function] (lines 54-63) *)
Definition to_openai_function (tool : AgentTool.t) : val :=
  VDict (<["type" := VStr "function"]>
        (<["function" :=
             VDict (<["name" := VStr (AgentTool.name tool)]>
                   (<["description" := VStr (AgentTool.description tool)]>
                   (<["parameters" := AgentTool.parameters tool]> ∅)))]> ∅)).

(** [BaseAgent.create_system_message] (lines 154-159) *)
Definition create_system_message (self : BaseAgent.t)
    (additional_context : option string) : chat_message :=
  let content := BaseAgent.system_prompt self in
  let content :=
    match additional_context with
    | Some c =>
        if truthy (VStr c)
        then content +:+ String "010" (String "010" "Additional Context:")
                     +:+ String "010" c
        else content
    | None => content
    end in
  ChatMessage "system" content.

(** [BaseAgent.call_llm] (lines 95-137) *)
Definition call_llm (W : World) (self : BaseAgent.t)
    (messages : list chat_message) (tools : option (list AgentTool.t))
    (response_format : option (gmap string string))
    (temperature : option Q) : M LLMResult.t :=
  try_except
    (let all_tools := BaseAgent.tools self ++ default [] tools in
     let params :=
       Params.mk
         (BaseAgent.model self)
         messages
         (match temperature with
          | Some t => if Qeq_bool t 0 then BaseAgent.temperature self else t
          | None => BaseAgent.temperature self
          end)
         (BaseAgent.max_tokens self)
         (match all_tools with
          | [] => None
          | _ => Some (to_openai_function <$> all_tools)
          end)
         (match response_format with
          | Some f => if bool_decide (f = ∅) then None else Some f
          | None => None
          end) in
     let* response := call_provider W params in
     match Completion.choices response with
     | [] => raise (Exn IndexError "list index out of range")
     | choice :: _ =>
         match Completion.usage response with
         | None =>
             raise (Exn AttributeError
               "'NoneType' object has no attribute 'prompt_tokens'")
         | Some usage =>
             ret (LLMResult.mk true
                    (Completion.message_content choice)
                    (Completion.message_tool_calls choice)
                    (Some usage) None)
         end
     end)
    (fun e =>
       exec logger_call W "llm_call_failed" {[ "error" := VStr (exn_str e) ]} in
       ret (LLMResult.mk false None None None (Some (exn_str e)))).

(** [BaseAgent.execute_tool] (lines 139-152) *)
Definition execute_tool (W : World) (self : BaseAgent.t)
    (tool_call : ToolCall.t) : M string :=
  let tool_name := ToolCall.name tool_call in
  let* arguments := json_loads_py W (Some (ToolCall.arguments tool_call)) in
  let tool :=
    List.find (fun t => String.eqb (AgentTool.name t) tool_name)
              (BaseAgent.tools self) in
  match tool with
  | None =>
      json_dumps_py W
        (VDict {[ "error" := VStr ("Tool " +:+ tool_name +:+ " not found") ]})
  | Some tool =>
      try_except
        (let* result := AgentTool_execute tool arguments in
         json_dumps_py W (VDict {[ "result" := result ]}))
        (fun e => json_dumps_py W (VDict {[ "error" := VStr (exn_str e) ]}))
  end.

(** The keyword arguments [log_action] gives to the logger (lines 172-177). *)
Definition audit_fields (self : BaseAgent.t) (input_data : AgentInput)
    (output_data : AgentOutput) (latency_ms : Z) (tokens : gmap string val)
    : gmap string val :=
  <["agent_type" := VStr (BaseAgent.agent_type self)]>
  (<["user_id" := opt_val (AgentInput.user_id input_data)]>
  (<["conversation_id" := opt_val (AgentInput.conversation_id input_data)]>
  (<["success" := VBool (AgentOutput.success output_data)]>
  (<["latency_ms" := VInt latency_ms]>
  (<["tokens" := VDict tokens]> ∅))))).

(** [BaseAgent.log_action] (lines 161-178) *)
Definition log_action (W : World) (self : BaseAgent.t)
    (input_data : AgentInput) (output_data : AgentOutput) (latency_ms : Z)
    (tokens : gmap string val) : M unit :=
  logger_call W "agent_action"
    (audit_fields self input_data output_data latency_ms tokens).

(** [AgentRegistry.get] (lines 196-198): a dictionary lookup, which needs a
    hashable key; the keys of the registry are strings. *)
Definition AgentRegistry_get (registry : gmap string Agent) (agent_type : val)
    : M (option Agent) :=
  if hashable agent_type then
    match agent_type with
    | VStr s => ret (registry !! s)
    | _ => ret None
    end
  else raise (unhashable agent_type).

(** ** orchestrator.py *)

(** The static intent table of [_analyze_and_route] (lines 122-131). *)
Definition routing_map : gmap string string :=
  <["search_medicine" := "medicine_search"]>
  (<["upload_prescription" := "prescription_validation"]>
  (<["check_order" := "customer_support"]>
  (<["create_order" := "order_processing"]>
  (<["payment" := "payment"]>
  (<["track_delivery" := "delivery"]>
  (<["general_question" := "customer_support"]>
  (<["safety_check" := "compliance_safety"]> ∅))))))).

(** [routing_map.get(intent, "customer_support")]: the key must be
    hashable, and only a string can be equal to a key of the table. *)
Definition routing_map_get (intent : val) : M string :=
  if hashable intent then
    match intent with
    | VStr s => ret (default "customer_support" (routing_map !! s))
    | _ => ret "customer_support"
    end
  else raise (unhashable intent).

(** A routing decision, as the dictionary the code builds. *)
Definition routing_decision (target_agent reasoning : string) : val :=
  VDict (<["target_agent" := VStr target_agent]>
        (<["reasoning" := VStr reasoning]>
        (<["context_to_pass" := VDict ∅]>
        (<["priority" := VStr "normal"]> ∅)))).

(** The decision returned at lines 161-166. *)
Definition fallback_decision : val :=
  routing_decision "customer_support" "Fallback routing due to analysis failure".

(** [OrchestratorAgent._analyze_and_route] (lines 115-166) *)
Definition _analyze_and_route (W : World) (self : BaseAgent.t)
    (input_data : AgentInput) : M val :=
  let user_message := dict_get (AgentInput.payload input_data) "message" (VStr "") in
  let intent := dict_get (AgentInput.payload input_data) "intent" VNone in
  if truthy intent then
    let* target := routing_map_get intent in
    ret (routing_decision target ("Explicit intent: " +:+ py_str W intent))
  else
    let messages :=
      [ create_system_message self None;
        ChatMessage "user"
          ("User message: " +:+ py_str W user_message
             +:+ String "010" (String "010"
                   "Determine which agent should handle this request.")) ] in
    let* response :=
      call_llm W self messages None (Some {[ "type" := "json_object" ]}) None in
    let* parsed :=
      if LLMResult.success response then
        try_except_if is_JSONDecodeError
          (let* v := json_loads_py W (LLMResult.content response) in
           ret (Some v))
          (fun _ => ret None)
      else ret None in
    match parsed with
    | Some decision => ret decision
    | None => ret fallback_decision
    end.

(** Lines 69-94 of [OrchestratorAgent.process]: routing, merging the
    decision's context into the payload of the request object, resolving
    and calling the target agent, annotating its result.  [inl] is the
    response returned at line 82, [inr] the annotated result that goes on
    to line 96. *)
Definition route_and_dispatch (W : World) (self : BaseAgent.t)
    (registry : gmap string Agent) (r : nat) : M (AgentOutput + AgentOutput) :=
  let* input_data := load r in
  let* decision := _analyze_and_route W self input_data in
  let* target_agent_type := py_get decision "target_agent" (VStr "customer_support") in
  let* context := py_get decision "context_to_pass" (VDict ∅) in
  let* merged_payload := unpack_merge (AgentInput.payload input_data) context in
  exec store r (AgentInput.set_payload merged_payload input_data) in
  let* target_agent := AgentRegistry_get registry target_agent_type in
  match target_agent with
  | None =>
      let* out :=
        new_AgentOutput W false
          {[ "routing_decision" := decision ]}
          (Some ("Agent " +:+ py_str W target_agent_type +:+ " not found"))
          (Some "AGENT_NOT_FOUND") ∅ in
      ret (inl out)
  | Some target_agent =>
      let* input_data := load r in
      let* result := call_agent target_agent_type target_agent input_data in
      let result := AgentOutput.set_metadata "routing" decision result in
      let* now := utcnow W in
      let result :=
        AgentOutput.set_metadata "orchestrated_at" (VStr (isoformat W now)) result in
      ret (inr result)
  end.

(** [{"input": 0, "output": 0}] with the keys spelled out (line 101). *)
Definition no_tokens : gmap string val :=
  <["input" := VInt 0]> (<["output" := VInt 0]> ∅).

(** Lines 96-104: the latency, the audit record, the return. *)
Definition log_and_return (W : World) (self : BaseAgent.t) (r : nat)
    (start_time : Q) (result : AgentOutput) : M AgentOutput :=
  let* now := time_time W in
  let latency := latency_ms start_time now in
  let* input_data := load r in
  exec log_action W self input_data result latency no_tokens in
  ret result.

(** The body of the [try] statement (lines 68-104). *)
Definition process_try (W : World) (self : BaseAgent.t)
    (registry : gmap string Agent) (r : nat) (start_time : Q) : M AgentOutput :=
  let* dispatched := route_and_dispatch W self registry r in
  match dispatched with
  | inl out => ret out
  | inr result => log_and_return W self r start_time result
  end.

(** The handler of the [try] statement (lines 106-113). *)
Definition orchestration_error (W : World) (start_time : Q) (e : exn)
    : M AgentOutput :=
  let* now := time_time W in
  let latency := latency_ms start_time now in
  new_AgentOutput W false ∅ (Some (exn_str e)) (Some "ORCHESTRATION_ERROR")
    {[ "latency_ms" := VInt latency ]}.

(** [OrchestratorAgent.process] (lines 63-113).  [r] is the reference to the
    request object the caller passes. *)
Definition process (W : World) (self : BaseAgent.t)
    (registry : gmap string Agent) (r : nat) : M AgentOutput :=
  let* start_time := time_time W in
  try_except (process_try W self registry r start_time)
             (orchestration_error W start_time).

(** One entry of the results log (line 197). *)
Definition log_entry (agent_type : val) (result : AgentOutput) : val :=
  VDict (<["agent" := agent_type]> (<["result" := VOutput result]> ∅)).

(** The [for] loop of [execute_workflow] and the return that follows it
    (lines 178-217); [results] and [context] are the two local variables
    the loop updates. *)
Fixpoint workflow_loop (W : World) (registry : gmap string Agent)
    (workflow_name : string) (input_data : AgentInput)
    (steps : list (gmap string val)) (results : list val)
    (context : gmap string val) : M AgentOutput :=
  match steps with
  | [] =>
      new_AgentOutput W true
        (<["workflow" := VStr workflow_name]>
        (<["results" := VList results]>
        (<["final_context" := VDict context]> ∅)))
        None None ∅
  | step :: steps =>
      let* agent_type := dict_index step "agent" in
      let* agent := AgentRegistry_get registry agent_type in
      match agent with
      | None =>
          new_AgentOutput W false ∅
            (Some ("Agent " +:+ py_str W agent_type +:+ " not found in workflow"))
            (Some "WORKFLOW_AGENT_MISSING") ∅
      | Some agent =>
          let* payload := unpack_merge context (dict_get step "payload" (VDict ∅)) in
          let* step_input :=
            new_AgentInput W (AgentInput.user_id input_data)
              (AgentInput.conversation_id input_data) payload in
          let* result := call_agent agent_type agent step_input in
          let results := results ++ [log_entry agent_type result] in
          if negb (AgentOutput.success result)
             && negb (truthy (dict_get step "continue_on_error" VNone))
          then
            new_AgentOutput W false
              {[ "results" := VList results ]}
              (Some ("Workflow failed at step " +:+ py_str W agent_type))
              (Some "WORKFLOW_FAILED") ∅
          else
            workflow_loop W registry workflow_name input_data steps results
              (AgentOutput.data result ∪ context)
      end
  end.

(** [OrchestratorAgent.execute_workflow] (lines 168-217).  The context
    starts as a copy of the payload of the initial request.  The function
    only reads its request and never assigns to it, so the request is taken
    by value here. *)
Definition execute_workflow (W : World) (registry : gmap string Agent)
    (workflow_name : string) (input_data : AgentInput)
    (steps : list (gmap string val)) : M AgentOutput :=
  workflow_loop W registry workflow_name input_data steps []
    (AgentInput.payload input_data).

(** ** Reference notions

    What the statements below compare the code with. *)

(** The image of an intent under the static table, [customer_support] when
    the table has no entry for it. *)
Definition static_table_image (intent : val) : string :=
  match intent with
  | VStr s => default "customer_support" (routing_map !! s)
  | _ => "customer_support"
  end.

(** The context after the responses [rs] have been merged, in order, into
    [context]: at every key the last write wins. *)
Definition merge_results (context : gmap string val) (rs : list AgentOutput)
    : gmap string val :=
  foldl (fun c r => AgentOutput.data r ∪ c) context rs.

(** The trace entry of a call to an agent. *)
Definition call_event (c : val * AgentInput) : event := EvAgent c.1 c.2.

(** The results log made of the calls [calls] and their responses [rs]. *)
Definition results_log (calls : list (val * AgentInput)) (rs : list AgentOutput)
    : list val :=
  zip_with (fun c r => log_entry c.1 r) calls rs.

(** The request a workflow step receives when the loop is in state [st]
    with the context [context] and the step overrides [overrides]. *)
Definition step_request (W : World) (input_data : AgentInput)
    (context overrides : gmap string val) (st : state) : AgentInput :=
  AgentInput.mk (AgentInput.user_id input_data)
    (AgentInput.conversation_id input_data) None (uuid_at W (uuids st))
    (time_at W (clock st)) (overrides ∪ context) ∅.


(** A computation that writes no request object. *)
Definition heap_stable {A} (m : M A) : Prop :=
  forall st res st', m st = (res, st') -> heap st' = heap st.

(** ** Sample collaborators

    Concrete worlds, agents and requests on which the definitions are
    evaluated. *)
Module Sample.

Definition quoted (s : string) : string := String "034" s +:+ String "034" "".

(** The text of a JSON object with one string member. *)
Definition json_member (k v : string) : string := quoted k +:+ ": " +:+ quoted v.

(** A decision that routes to [payment]. *)
Definition payment_text : string :=
  "{" +:+ json_member "target_agent" "payment" +:+ "}".

(** A decision that routes to [customer_support] and passes a locale. *)
Definition locale_text : string :=
  "{" +:+ json_member "target_agent" "customer_support" +:+ ", "
      +:+ quoted "context_to_pass" +:+ ": {" +:+ json_member "locale" "en" +:+ "}}".

(** [json.loads] on the texts used below; it fails on every other text,
    in particular on the unbalanced text of one brace. *)
Definition loads (s : string) : option val :=
  if String.eqb s payment_text then
    Some (VDict {[ "target_agent" := VStr "payment" ]})
  else if String.eqb s locale_text then
    Some (VDict (<["target_agent" := VStr "customer_support"]>
                (<["context_to_pass" := VDict {[ "locale" := VStr "en" ]}]> ∅)))
  else if String.eqb s "{}" then Some (VDict ∅)
  else if String.eqb s "null" then Some VNone
  else None.

(** [json.dumps] on the documents [execute_tool] builds from strings. *)
Definition dumps (v : val) : option string :=
  match v with
  | VDict d =>
      match map_to_list d with
      | [(k, VStr s)] => Some ("{" +:+ json_member k s +:+ "}")
      | _ => None
      end
  | _ => None
  end.

(** A world whose provider and logger are given; identifiers are
    [id-0], [id-1], ... and the clock advances by a quarter of a second
    at every reading. *)
Definition world
    (provider : Params.t -> state -> outcome Completion.t)
    (logger : string -> gmap string val -> state -> option exn) : World :=
  {| json_loads := loads;
     json_dumps := dumps;
     py_repr := fun _ => "<object>";
     isoformat := fun t => "T" +:+ pretty (Qnum t);
     time_at := fun n => (Z.of_nat n # 4)%Q;
     uuid_at := fun n => "id-" +:+ pretty n;
     completions_create := provider;
     logger_emit := logger |}.

Definition usage : Completion.usage_t := Completion.Usage 10 5 15.

(** A provider that answers with the given content. *)
Definition answers (content : option string)
    : Params.t -> state -> outcome Completion.t :=
  fun _ _ => Ret (Completion.mk [Completion.Choice content None] (Some usage)).

(** A provider whose connection fails. *)
Definition unreachable : Params.t -> state -> outcome Completion.t :=
  fun _ _ => Raise (Exn (OtherError "APIConnectionError") "Connection error.").

Definition quiet : string -> gmap string val -> state -> option exn :=
  fun _ _ _ => None.

(** A logger whose sink is broken. *)
Definition broken : string -> gmap string val -> state -> option exn :=
  fun _ _ _ => Some (Exn (OtherError "OSError") "audit sink unavailable").

Definition orchestrator : BaseAgent.t :=
  BaseAgent.mk "orchestrator" "You are the Orchestrator Agent." "gpt-4"
    (3 # 10) 500 [].

(** An agent that succeeds and answers with the given data. *)
Definition succeeds (data : gmap string val) : Agent :=
  fun _ _ => Ret (AgentOutput.mk true "out" 0 data None None ∅ 1 false).

(** An agent that reports a failure. *)
Definition fails : Agent :=
  fun _ _ =>
    Ret (AgentOutput.mk false "out" 0 ∅ (Some "no stock") (Some "OUT_OF_STOCK")
           ∅ 1 false).

(** An agent that raises an exception whose message is empty, as
    [raise TimeoutError()] does. *)
Definition times_out : Agent :=
  fun _ _ => Raise (Exn (OtherError "TimeoutError") "").

Definition registry : gmap string Agent :=
  <["customer_support" := succeeds {[ "response" := VStr "hello" ]}]>
  (<["medicine_search" := succeeds {[ "x" := VInt 1 ]}]>
  (<["order_processing" := fails]>
  (<["compliance_safety" := times_out]> ∅))).

Definition request (payload : gmap string val) : AgentInput :=
  AgentInput.mk (Some "u1") (Some "c1") (Some "s1") "m0" 0 payload
    {[ "trace_id" := VStr "t-1" ]}.

(** A state in which nothing has happened and the request [x] is the
    object at reference 0. *)
Definition initial (x : AgentInput) : state := State 0 0 [] {[ 0%nat := x ]}.

End Sample.

(** An agent that owns one tool. *)
Module SampleTools.

(** A tool that looks a medicine up and answers with a fixed record. *)
Definition lookup : AgentTool.t :=
  AgentTool.mk "lookup" "Look a medicine up"
    (fun _ _ => Ret (VStr "found"))
    (VDict ∅).

Definition agent : BaseAgent.t :=
  BaseAgent.mk "medicine_search" "You search medicines." "gpt-4" (7 # 10) 1000
    [lookup].

End SampleTools.



(** ** The rest of base.py *)

Module Settings.
(** The settings [BaseAgent.__init__] reads (core/config.py, lines 38-41);
    their values come from the environment. *)
Record t := mk {
  OPENAI_MODEL : string;
  OPENAI_TEMPERATURE : Q;
  OPENAI_MAX_TOKENS : Z
}.
End Settings.

(** The attribute assignments of [BaseAgent.__init__] (base.py, lines
    78-83).  Each optional argument is combined with its default by [or],
    which takes the default whenever the argument is falsy. *)
Definition BaseAgent_init (settings : Settings.t) (agent_type system_prompt : string)
    (model : option string) (temperature : option Q) (max_tokens : option Z)
    (tools : option (list AgentTool.t)) : BaseAgent.t :=
  BaseAgent.mk agent_type system_prompt
    (match model with
     | Some m => if truthy (VStr m) then m else Settings.OPENAI_MODEL settings
     | None => Settings.OPENAI_MODEL settings
     end)
    (match temperature with
     | Some t => if Qeq_bool t 0 then Settings.OPENAI_TEMPERATURE settings else t
     | None => Settings.OPENAI_TEMPERATURE settings
     end)
    (match max_tokens with
     | Some n => if truthy (VInt n) then n else Settings.OPENAI_MAX_TOKENS settings
     | None => Settings.OPENAI_MAX_TOKENS settings
     end)
    (match tools with
     | Some (t :: ts) => t :: ts
     | _ => []
     end).

(** The keyword arguments [call_llm] builds (base.py, lines 104-117). *)
Definition llm_request (self : BaseAgent.t) (messages : list chat_message)
    (tools : option (list AgentTool.t))
    (response_format : option (gmap string string)) (temperature : option Q)
    : Params.t :=
  let all_tools := BaseAgent.tools self ++ default [] tools in
  Params.mk
    (BaseAgent.model self)
    messages
    (match temperature with
     | Some t => if Qeq_bool t 0 then BaseAgent.temperature self else t
     | None => BaseAgent.temperature self
     end)
    (BaseAgent.max_tokens self)
    (match all_tools with
     | [] => None
     | _ => Some (to_openai_function <$> all_tools)
     end)
    (match response_format with
     | Some f => if bool_decide (f = ∅) then None else Some f
     | None => None
     end).

(** The result [call_llm] returns from its handler (lines 133-137). *)
Definition llm_failure (e : exn) : LLMResult.t :=
  LLMResult.mk false None None None (Some (exn_str e)).

(** What [call_llm] makes of the provider's answer (lines 119-130): the
    normalized result, or the exception the [try] body raises. *)
Definition read_completion (answer : outcome Completion.t) : LLMResult.t + exn :=
  match answer with
  | Raise e => inr e
  | Ret response =>
      match Completion.choices response with
      | [] => inr (Exn IndexError "list index out of range")
      | choice :: _ =>
          match Completion.usage response with
          | None =>
              inr (Exn AttributeError
                     "'NoneType' object has no attribute 'prompt_tokens'")
          | Some usage =>
              inl (LLMResult.mk true (Completion.message_content choice)
                     (Completion.message_tool_calls choice) (Some usage) None)
          end
      end
  end.

(** The calls to the provider, to agents and to tools in a trace. *)
Definition is_provider_call (ev : event) : bool :=
  match ev with EvLLM _ => true | _ => false end.

Definition is_agent_call (ev : event) : bool :=
  match ev with EvAgent _ _ => true | _ => false end.

Definition is_tool_call (ev : event) : bool :=
  match ev with EvTool _ _ => true | _ => false end.

Definition provider_calls (tr : list event) : nat :=
  length (filter (fun ev => is_provider_call ev = true) tr).

Definition agent_calls (tr : list event) : nat :=
  length (filter (fun ev => is_agent_call ev = true) tr).

Definition tool_calls (tr : list event) : nat :=
  length (filter (fun ev => is_tool_call ev = true) tr).

Module SampleDuplicates.

(** Two tools that bear the same name. *)
Definition first : AgentTool.t :=
  AgentTool.mk "lookup" "Look a medicine up"
    (fun _ _ => Ret (VStr "found")) (VDict ∅).

Definition second : AgentTool.t :=
  AgentTool.mk "lookup" "Look a supplier up"
    (fun _ _ => Ret (VStr "shadowed")) (VDict ∅).

Definition agent : BaseAgent.t :=
  BaseAgent.mk "medicine_search" "You search medicines." "gpt-4" (7 # 10) 1000
    [first; second].

End SampleDuplicates.

(** The response line 82 of orchestrator.py builds in state [st]. *)
Definition agent_not_found (W : World) (decision target : val) (st : state)
    : AgentOutput :=
  AgentOutput.mk false (uuid_at W (uuids st)) (time_at W (clock st))
    {[ "routing_decision" := decision ]}
    (Some ("Agent " +:+ py_str W target +:+ " not found"))
    (Some "AGENT_NOT_FOUND") ∅ 1 false.

(** The annotations of lines 93-94, made at clock reading [now]. *)
Definition annotate (W : World) (decision : val) (now : Q) (result : AgentOutput)
    : AgentOutput :=
  AgentOutput.set_metadata "orchestrated_at" (VStr (isoformat W now))
    (AgentOutput.set_metadata "routing" decision result).

(** A computation that makes at most [nl] calls to the provider and at most
    [na] calls to agents, and only appends to the trace. *)
Definition calls_within (nl na : nat) {A} (m : M A) : Prop :=
  forall st res st',
    m st = (res, st') ->
    exists evs,
      trace st' = trace st ++ evs
      /\ provider_calls evs <= nl
      /\ agent_calls evs <= na.

(** A workflow step that cannot stop the workflow: its agent is registered,
    its overrides form a dictionary, and whatever request the agent is given
    it answers, with a success unless the step has opted into
    [continue_on_error]. *)
Definition step_runs (registry : gmap string Agent) (step : gmap string val)
    : Prop :=
  exists a agent overrides,
    step !! "agent" = Some (VStr a)
    /\ registry !! a = Some agent
    /\ dict_get step "payload" (VDict ∅) = VDict overrides
    /\ forall input_data st,
         exists result,
           agent input_data st = Ret result
           /\ (AgentOutput.success result = true
               \/ truthy (dict_get step "continue_on_error" VNone) = true).

Module AgentRegistry.

(** The dictionary [_agents] of [AgentRegistry] (base.py, line 185), as the
    list of its items: a Python dictionary keeps its keys in the order in
    which they were first inserted, and [list_agents] shows that order. *)
Definition empty : list (string * Agent) := [].

(** [register] (lines 192-194): [self._agents[agent_type] = agent].  A key
    that is present keeps its place and takes the new value; a new key goes
    to the end. *)
Fixpoint register (agent_type : string) (agent : Agent)
    (agents : list (string * Agent)) : list (string * Agent) :=
  match agents with
  | [] => [(agent_type, agent)]
  | (k, v) :: agents' =>
      if String.eqb k agent_type then (k, agent) :: agents'
      else (k, v) :: register agent_type agent agents'
  end.

(** [get] (lines 196-198) on a string. *)
Fixpoint get (agents : list (string * Agent)) (agent_type : string)
    : option Agent :=
  match agents with
  | [] => None
  | (k, v) :: agents' =>
      if String.eqb k agent_type then Some v else get agents' agent_type
  end.

(** [list_agents] (lines 200-202) *)
Definition list_agents (agents : list (string * Agent)) : list string :=
  agents.*1.

(** The registry as the finite map the orchestrator looks agents up in. *)
Definition as_map (agents : list (string * Agent)) : gmap string Agent :=
  list_to_map agents.

End AgentRegistry.

Module Agents.
(** The agent instances that agents/__init__.py creates (lines 13-18),
    each seen through its [process]. *)
Record t := mk {
  orchestrator : Agent;
  customer_support : Agent;
  medicine_search : Agent;
  prescription_validation : Agent;
  order_processing : Agent;
  compliance_safety : Agent
}.
End Agents.

(** [register_agents] (agents/__init__.py, lines 21-28) *)
Definition register_agents (agents : Agents.t)
    (registry : list (string * Agent)) : list (string * Agent) :=
  let registry :=
    AgentRegistry.register "orchestrator" (Agents.orchestrator agents) registry in
  let registry :=
    AgentRegistry.register "customer_support" (Agents.customer_support agents) registry in
  let registry :=
    AgentRegistry.register "medicine_search" (Agents.medicine_search agents) registry in
  let registry :=
    AgentRegistry.register "prescription_validation"
      (Agents.prescription_validation agents) registry in
  let registry :=
    AgentRegistry.register "order_processing" (Agents.order_processing agents) registry in
  AgentRegistry.register "compliance_safety" (Agents.compliance_safety agents) registry.

(** The registry after start-up (main.py, line 52). *)
Definition startup_registry (agents : Agents.t) : gmap string Agent :=
  AgentRegistry.as_map (register_agents agents AgentRegistry.empty).

Module SampleAgents.
(** Six agents for the start-up registration. *)
Definition agents : Agents.t :=
  Agents.mk (Sample.succeeds ∅)
    (Sample.succeeds {[ "response" := VStr "hello" ]})
    (Sample.succeeds {[ "x" := VInt 1 ]})
    (Sample.succeeds ∅) Sample.fails Sample.times_out.
End SampleAgents.

(** ** api/chat.py *)

Module ChatMessageRequest.
(** [ChatMessageRequest] (chat.py, lines 17-20).  [context] is optional:
    it is an empty dictionary when the client leaves it out and [None] when
    the client sends [null]. *)
Record t := mk {
  message : string;
  conversation_id : option string;
  context : option (gmap string val)
}.
End ChatMessageRequest.

Module ChatMessageResponse.
(** [ChatMessageResponse] (chat.py, lines 23-31) *)
Record t := mk {
  id : string;
  conversation_id : string;
  message : string;
  response : string;
  agent_type : string;
  confidence : Q;
  structured_data : option (gmap string val);
  created_at : Q
}.
End ChatMessageResponse.

Module Framework.
(** What [send_message] relies on from the libraries: [strftime fmt t] is
    [t.strftime(fmt)], and [validation_error model fields] is the text of
    the [ValidationError] pydantic raises for [model] when the listed
    fields were given the listed values, which their types refuse. *)
Record t := mk {
  strftime : string -> Q -> string;
  validation_error : string -> list (string * val) -> string
}.
End Framework.

(** [HTTPException(status_code=.., detail=..)]; its [str] shows both. *)
Definition http_exception (status_code : Z) (detail : string) : exn :=
  Exn (OtherError "HTTPException") (pretty status_code +:+ ": " +:+ detail).

Definition ValidationError (F : Framework.t) (model : string)
    (fields : list (string * val)) : exn :=
  Exn (OtherError "ValidationError") (Framework.validation_error F model fields).

(** [AgentInput(user_id=current_user["id"], ..)]: the field is declared
    [Optional[str]], so pydantic keeps a string or [None] and refuses any
    other value.  The default factories of [request_id] and [timestamp] run
    before the error is raised. *)
Definition new_AgentInput_checked (F : Framework.t) (W : World) (user_id : val)
    (conversation_id : option string) (payload : gmap string val)
    : M AgentInput :=
  match user_id with
  | VNone => new_AgentInput W None conversation_id payload
  | VStr s => new_AgentInput W (Some s) conversation_id payload
  | _ =>
      exec new_AgentInput W None conversation_id payload in
      raise (ValidationError F "AgentInput" [("user_id", user_id)])
  end.

(** A new request object: a reference no object has yet. *)
Definition alloc (x : AgentInput) : M nat :=
  fun st =>
    let r := fresh (dom (heap st)) in
    (Ret r, set_heap (<[r := x]> (heap st)) st).

(** [x or dflt] on an optional string. *)
Definition str_or (x : option string) (dflt : string) : string :=
  match x with
  | Some s => if truthy (VStr s) then s else dflt
  | None => dflt
  end.

(** The fields of [ChatMessageResponse] declared [str] that are given
    something else. *)
Definition refused_str (field : string) (v : val) : list (string * val) :=
  match v with
  | VStr _ => []
  | _ => [(field, v)]
  end.

(** Lines 90-103 of [send_message]: the response built from a successful
    result. *)
Definition chat_response (F : Framework.t) (W : World)
    (request : ChatMessageRequest.t) (result : AgentOutput)
    : M ChatMessageResponse.t :=
  let* now := utcnow W in
  let response_id := "msg-" +:+ Framework.strftime F "%Y%m%d%H%M%S%f" now in
  let* conversation_id :=
    match ChatMessageRequest.conversation_id request with
    | Some c =>
        if truthy (VStr c) then ret c
        else let* now := utcnow W in
             ret ("conv-" +:+ Framework.strftime F "%Y%m%d%H%M%S" now)
    | None => let* now := utcnow W in
              ret ("conv-" +:+ Framework.strftime F "%Y%m%d%H%M%S" now)
    end in
  let response := dict_get (AgentOutput.data result) "response" (VStr "") in
  let* agent_type :=
    py_get (dict_get (AgentOutput.metadata result) "routing" (VDict ∅))
      "target_agent" (VStr "unknown") in
  let* created_at := utcnow W in
  match response, agent_type with
  | VStr response, VStr agent_type =>
      ret (ChatMessageResponse.mk response_id conversation_id
             (ChatMessageRequest.message request) response agent_type
             (AgentOutput.confidence result) (Some (AgentOutput.data result))
             created_at)
  | _, _ =>
      raise (ValidationError F "ChatMessageResponse"
               (refused_str "response" response
                ++ refused_str "agent_type" agent_type))
  end.

(** [send_message] (chat.py, lines 64-103), for the orchestrator [self] and
    the registry it looks agents up in; [current_user] is the dictionary the
    authentication dependency supplies. *)
Definition send_message (F : Framework.t) (W : World)
    (self : BaseAgent.t) (registry : gmap string Agent)
    (request : ChatMessageRequest.t) (current_user : gmap string val)
    : M ChatMessageResponse.t :=
  let* user_id := dict_index current_user "id" in
  let* payload :=
    unpack_merge {[ "message" := VStr (ChatMessageRequest.message request) ]}
      (match ChatMessageRequest.context request with
       | Some c => VDict c | None => VNone end) in
  let* agent_input :=
    new_AgentInput_checked F W user_id
      (ChatMessageRequest.conversation_id request) payload in
  let* r := alloc agent_input in
  let* result := process W self registry r in
  if negb (AgentOutput.success result) then
    raise (http_exception 500
             (str_or (AgentOutput.error result) "Failed to process message"))
  else chat_response F W request result.

Module SampleChat.
Definition framework : Framework.t :=
  Framework.mk (fun _ _ => "stamp") (fun model _ => model).
End SampleChat.

(** The request object [send_message] builds in state [st] for the user
    [user_id], and the state in which it hands it to the orchestrator. *)
Definition chat_input (W : World) (request : ChatMessageRequest.t)
    (user_id : option string) (context : gmap string val) (st : state)
    : AgentInput :=
  AgentInput.mk user_id (ChatMessageRequest.conversation_id request) None
    (uuid_at W (uuids st)) (time_at W (clock st))
    (context ∪ {[ "message" := VStr (ChatMessageRequest.message request) ]}) ∅.

Definition chat_ref (st : state) : nat := fresh (dom (heap st)).

Definition chat_state (W : World) (request : ChatMessageRequest.t)
    (user_id : option string) (context : gmap string val) (st : state) : state :=
  set_heap (<[chat_ref st := chat_input W request user_id context st]> (heap st))
    (advance_clock (advance_uuids st)).


(** * Properties *)

(** ** Running the monad *)

Section Monad_facts.
Context {A B : Type}.
Implicit Types (m : M A) (k : A -> M B).

Lemma bind_Ret m k st a st1 : m st = (Ret a, st1) -> bind m k st = k a st1.
Proof. unfold bind. intros ->. reflexivity. Qed.

Lemma bind_Raise m k st e st1 :
  m st = (Raise e, st1) -> bind m k st = (Raise e, st1).
Proof. unfold bind. intros ->. reflexivity. Qed.

Lemma bind_Ret_inv m k st b st' :
  bind m k st = (Ret b, st') ->
  exists a st1, m st = (Ret a, st1) /\ k a st1 = (Ret b, st').
Proof.
  unfold bind. destruct (m st) as [[a|e] st1]; intros H.
  - exists a, st1. split; [reflexivity | exact H].
  - discriminate H.
Qed.

Lemma try_except_Ret (m : M A) h st a st1 :
  m st = (Ret a, st1) -> try_except m h st = (Ret a, st1).
Proof. unfold try_except, try_except_if. intros ->. reflexivity. Qed.

Lemma try_except_Raise (m : M A) h st e st1 :
  m st = (Raise e, st1) -> try_except m h st = h e st1.
Proof. unfold try_except, try_except_if. intros ->. reflexivity. Qed.

End Monad_facts.

(** The constructors of the envelopes always return. *)
Lemma new_AgentOutput_run W success data error error_code metadata st :
  new_AgentOutput W success data error error_code metadata st =
    (Ret (AgentOutput.mk success (uuid_at W (uuids st)) (time_at W (clock st))
            data error error_code metadata 1 false),
     advance_clock (advance_uuids st)).
Proof. reflexivity. Qed.

Lemma new_AgentInput_run W user_id conversation_id payload st :
  new_AgentInput W user_id conversation_id payload st =
    (Ret (AgentInput.mk user_id conversation_id None (uuid_at W (uuids st))
            (time_at W (clock st)) payload ∅),
     advance_clock (advance_uuids st)).
Proof. reflexivity. Qed.

(** ** Routing on an explicit intent *)

Lemma analyze_explicit_intent W self input_data intent st :
  AgentInput.payload input_data !! "intent" = Some intent ->
  truthy intent = true ->
  hashable intent = true ->
  _analyze_and_route W self input_data st =
    (Ret (routing_decision (static_table_image intent)
            ("Explicit intent: " +:+ py_str W intent)), st).
Proof.
  intros Hintent Htruthy Hhash.
  unfold _analyze_and_route, dict_get. rewrite Hintent. simpl.
  rewrite Htruthy. unfold routing_map_get. rewrite Hhash.
  destruct intent; try discriminate Hhash; reflexivity.
Qed.




(** ** Totality of [process] *)

Lemma orchestration_error_run W start_time e st :
  orchestration_error W start_time e st =
    (Ret (AgentOutput.mk false (uuid_at W (uuids st)) (time_at W (S (clock st)))
            ∅ (Some (exn_str e)) (Some "ORCHESTRATION_ERROR")
            {[ "latency_ms" := VInt (latency_ms start_time (time_at W (clock st))) ]}
            1 false),
     advance_clock (advance_uuids (advance_clock st))).
Proof. reflexivity. Qed.


(** ** Routing through the model *)

(** C3, at the failing input.  The provider answers successfully with a
    message that has no content.  [json.loads] then raises a [TypeError],
    which the handler for [JSONDecodeError] does not catch:
    [_analyze_and_route] raises instead of returning the fallback decision,
    and [process] answers with an [ORCHESTRATION_ERROR] response without
    calling any agent.  With the content [null], which is JSON but no
    decision, the routing procedure returns [None] rather than the fallback
    decision. *)
Theorem route_without_content_raises :
  let W := Sample.world (Sample.answers None) Sample.quiet in
  let input_data := Sample.request {[ "message" := VStr "hi" ]} in
  let st := Sample.initial input_data in
  (exists params,
     _analyze_and_route W Sample.orchestrator input_data st =
       (Raise (Exn TypeError
                 "the JSON object must be str, bytes or bytearray, not NoneType"),
        record_event (EvLLM params) st))
  /\ (exists out st',
        process W Sample.orchestrator Sample.registry 0 st = (Ret out, st')
        /\ AgentOutput.success out = false
        /\ AgentOutput.error_code out = Some "ORCHESTRATION_ERROR"
        /\ Forall (fun ev => match ev with EvAgent _ _ => False | _ => True end)
                  (trace st'))
  /\ (exists params,
        _analyze_and_route
          (Sample.world (Sample.answers (Some "null")) Sample.quiet)
          Sample.orchestrator input_data st =
        (Ret VNone, record_event (EvLLM params) st)).
Proof.
  split; [|split].
  - eexists. vm_compute. reflexivity.
  - eexists _, _. split; [vm_compute; reflexivity|].
    split; [reflexivity|]. split; [reflexivity|].
    repeat constructor.
  - eexists. vm_compute. reflexivity.
Qed.

(** What does hold: when the call to the model fails, or its content is a
    text that [json.loads] rejects, the decision is the fallback one. *)
Lemma route_fallback_on_provider_failure :
  let W := Sample.world Sample.unreachable Sample.quiet in
  let input_data := Sample.request {[ "message" := VStr "hi" ]} in
  exists st',
    _analyze_and_route W Sample.orchestrator input_data (Sample.initial input_data)
      = (Ret fallback_decision, st').
Proof. eexists. vm_compute. reflexivity. Qed.

Lemma route_fallback_on_malformed_text W self input_data response st st1 text :
  truthy (dict_get (AgentInput.payload input_data) "intent" VNone) = false ->
  call_llm W self
    [ create_system_message self None;
      ChatMessage "user"
        ("User message: "
           +:+ py_str W (dict_get (AgentInput.payload input_data) "message" (VStr ""))
           +:+ String "010" (String "010"
                 "Determine which agent should handle this request.")) ]
    None (Some {[ "type" := "json_object" ]}) None st = (Ret response, st1) ->
  LLMResult.content response = Some text ->
  json_loads W text = None ->
  _analyze_and_route W self input_data st = (Ret fallback_decision, st1).
Proof.
  intros Hintent Hcall Hcontent Hloads.
  unfold _analyze_and_route. rewrite Hintent.
  rewrite (bind_Ret _ _ _ _ _ Hcall).
  destruct (LLMResult.success response); [|reflexivity].
  unfold bind, try_except_if, json_loads_py. rewrite Hcontent, Hloads.
  reflexivity.
Qed.

(** ** The tool boundary *)

(** C7, at the failing input.  The argument string is the unbalanced text of
    one opening brace.  [execute_tool] parses the arguments before it looks
    the tool up and outside its [try] statement, so the [JSONDecodeError]
    escapes, for a tool the agent owns and for a name it does not know
    alike. *)
Theorem execute_tool_malformed_arguments :
  let W := Sample.world Sample.unreachable Sample.quiet in
  let st := Sample.initial (Sample.request ∅) in
  json_loads W "{" = None
  /\ execute_tool W SampleTools.agent (ToolCall.mk "lookup" "{") st =
       (Raise (Exn JSONDecodeError "Expecting value"), st)
  /\ execute_tool W SampleTools.agent (ToolCall.mk "no_such_tool" "{") st =
       (Raise (Exn JSONDecodeError "Expecting value"), st).
Proof. repeat split; vm_compute; reflexivity. Qed.

(** With arguments that parse, an unknown tool name is answered by the
    serialized error document, and nothing is raised. *)
Lemma execute_tool_unknown_tool W self tool_call arguments st :
  json_loads W (ToolCall.arguments tool_call) = Some arguments ->
  List.find (fun t => String.eqb (AgentTool.name t) (ToolCall.name tool_call))
            (BaseAgent.tools self) = None ->
  execute_tool W self tool_call st =
    json_dumps_py W
      (VDict {[ "error" :=
                  VStr ("Tool " +:+ ToolCall.name tool_call +:+ " not found") ]})
      st.
Proof.
  intros Hloads Hfind. unfold execute_tool, json_loads_py, bind.
  rewrite Hloads. unfold ret. rewrite Hfind. reflexivity.
Qed.

(** ** The request object *)

Lemma heap_stable_ret {A} (a : A) : heap_stable (ret a).
Proof. intros st res st' [= _ <-]. reflexivity. Qed.

Lemma heap_stable_raise {A} e : heap_stable (@raise A e).
Proof. intros st res st' [= _ <-]. reflexivity. Qed.

Lemma heap_stable_bind {A B} (m : M A) (k : A -> M B) :
  heap_stable m -> (forall a, heap_stable (k a)) -> heap_stable (bind m k).
Proof.
  intros Hm Hk st res st'. unfold bind.
  destruct (m st) as [[a|e] st1] eqn:E; intros H.
  - rewrite (Hk a _ _ _ H). exact (Hm _ _ _ E).
  - injection H as _ <-. exact (Hm _ _ _ E).
Qed.

Lemma heap_stable_try {A} catches (m : M A) h :
  heap_stable m -> (forall e, heap_stable (h e)) ->
  heap_stable (try_except_if catches m h).
Proof.
  intros Hm Hh st res st'. unfold try_except_if.
  destruct (m st) as [[a|e] st1] eqn:E; intros H.
  - injection H as _ <-. exact (Hm _ _ _ E).
  - destruct (catches e).
    + rewrite (Hh e _ _ _ H). exact (Hm _ _ _ E).
    + injection H as _ <-. exact (Hm _ _ _ E).
Qed.

Lemma heap_stable_time_time W : heap_stable (time_time W).
Proof. intros st res st' [= _ <-]. reflexivity. Qed.

Lemma heap_stable_uuid4 W : heap_stable (uuid4 W).
Proof. intros st res st' [= _ <-]. reflexivity. Qed.

Lemma heap_stable_load r : heap_stable (load r).
Proof.
  intros st res st'. unfold load.
  destruct (heap st !! r); intros [= _ <-]; reflexivity.
Qed.

Lemma heap_stable_logger_call W name fields :
  heap_stable (logger_call W name fields).
Proof.
  intros st res st'. unfold logger_call.
  destruct (logger_emit W name fields st); intros [= _ <-]; reflexivity.
Qed.

Lemma heap_stable_call_agent agent_type agent input_data :
  heap_stable (call_agent agent_type agent input_data).
Proof. intros st res st' [= _ <-]. reflexivity. Qed.

Lemma heap_stable_call_provider W params : heap_stable (call_provider W params).
Proof. intros st res st' [= _ <-]. reflexivity. Qed.

Lemma heap_stable_new_AgentOutput W success data error error_code metadata :
  heap_stable (new_AgentOutput W success data error error_code metadata).
Proof. intros st res st' [= _ <-]. reflexivity. Qed.

Lemma heap_stable_json_loads_py W s : heap_stable (json_loads_py W s).
Proof.
  unfold json_loads_py. destruct s as [s|].
  - destruct (json_loads W s); [apply heap_stable_ret | apply heap_stable_raise].
  - apply heap_stable_raise.
Qed.

Lemma heap_stable_py_get v k dflt : heap_stable (py_get v k dflt).
Proof.
  destruct v; first [apply heap_stable_ret | apply heap_stable_raise].
Qed.

Lemma heap_stable_unpack_merge a b : heap_stable (unpack_merge a b).
Proof.
  destruct b; first [apply heap_stable_ret | apply heap_stable_raise].
Qed.

Lemma heap_stable_AgentRegistry_get registry agent_type :
  heap_stable (AgentRegistry_get registry agent_type).
Proof.
  unfold AgentRegistry_get.
  destruct agent_type; first [apply heap_stable_ret | apply heap_stable_raise].
Qed.

Lemma heap_stable_routing_map_get intent : heap_stable (routing_map_get intent).
Proof.
  unfold routing_map_get.
  destruct intent; first [apply heap_stable_ret | apply heap_stable_raise].
Qed.

Create HintDb heap_stable.
#[local] Hint Resolve heap_stable_ret heap_stable_raise heap_stable_time_time
  heap_stable_uuid4 heap_stable_load heap_stable_logger_call
  heap_stable_call_agent heap_stable_call_provider heap_stable_new_AgentOutput
  heap_stable_json_loads_py heap_stable_py_get heap_stable_unpack_merge
  heap_stable_AgentRegistry_get heap_stable_routing_map_get : heap_stable.

(** Composite computations: taken apart bind by bind, closed by the hints. *)
Ltac heap_stable :=
  repeat first
    [ progress eauto with heap_stable
    | apply heap_stable_bind; [| intros ?]
    | apply heap_stable_try; [| intros ?]
    | match goal with
      | |- heap_stable (match ?x with _ => _ end) => destruct x
      | |- heap_stable (if ?b then _ else _) => destruct b
      end ].

Lemma heap_stable_call_llm W self messages tools response_format temperature :
  heap_stable (call_llm W self messages tools response_format temperature).
Proof. unfold call_llm, try_except. heap_stable. Qed.

Lemma heap_stable_analyze_and_route W self input_data :
  heap_stable (_analyze_and_route W self input_data).
Proof.
  unfold _analyze_and_route.
  destruct (truthy _).
  - heap_stable.
  - apply heap_stable_bind; [apply heap_stable_call_llm | intros response].
    heap_stable.
Qed.



Lemma load_run r st req : heap st !! r = Some req -> load r st = (Ret req, st).
Proof. unfold load. intros ->. reflexivity. Qed.

(** What [route_and_dispatch] does to the request object at [r] and what it
    returns.  Either it raises before the assignment of line 76, and no
    object is written; or the routing decision is a dictionary [d] whose
    context is a dictionary [ctx], the payload of the object is replaced by
    the merge, and the call ends in an exception, in the [AGENT_NOT_FOUND]
    response, or in the annotated result of the registered target agent. *)
Lemma route_and_dispatch_spec W self registry r st req res st' :
  heap st !! r = Some req ->
  route_and_dispatch W self registry r st = (res, st') ->
  (exists e, res = Raise e /\ heap st' = heap st)
  \/ exists d ctx st1,
       _analyze_and_route W self req st = (Ret (VDict d), st1)
       /\ dict_get d "context_to_pass" (VDict ∅) = VDict ctx
       /\ heap st' =
            <[r := AgentInput.set_payload (ctx ∪ AgentInput.payload req) req]> (heap st)
       /\ ((exists e, res = Raise e)
           \/ (exists out,
                 res = Ret (inl out)
                 /\ AgentOutput.success out = false
                 /\ AgentOutput.error_code out = Some "AGENT_NOT_FOUND"
                 /\ AgentOutput.error out =
                      Some ("Agent "
                              +:+ py_str W (dict_get d "target_agent" (VStr "customer_support"))
                              +:+ " not found")
                 /\ AgentOutput.data out = {[ "routing_decision" := VDict d ]})
           \/ (exists a agent st2 res0,
                 dict_get d "target_agent" (VStr "customer_support") = VStr a
                 /\ registry !! a = Some agent
                 /\ agent (AgentInput.set_payload (ctx ∪ AgentInput.payload req) req) st2
                      = Ret res0
                 /\ heap st2 = heap st'
                 /\ st' = advance_clock
                            (record_event
                               (EvAgent (VStr a)
                                  (AgentInput.set_payload (ctx ∪ AgentInput.payload req) req))
                               st2)
                 /\ res = Ret (inr (AgentOutput.set_metadata "orchestrated_at"
                                      (VStr (isoformat W (time_at W (clock st2))))
                                      (AgentOutput.set_metadata "routing" (VDict d) res0))))).
Proof.
  intros Hreq. unfold route_and_dispatch.
  rewrite (bind_Ret _ _ _ _ _ (load_run _ _ _ Hreq)).
  destruct (_analyze_and_route W self req st) as [[decision|e] st1] eqn:Hroute;
    pose proof (heap_stable_analyze_and_route _ _ _ _ _ _ Hroute) as Hheap1.
  2:{ rewrite (bind_Raise _ _ _ _ _ Hroute). intros [= <- <-]. left. eauto. }
  rewrite (bind_Ret _ _ _ _ _ Hroute).
  destruct decision as [| | | | |d|];
    try (intros [= <- <-]; left; eauto; fail).
  cbn [py_get]. unfold bind at 1, ret at 1. unfold bind at 1, ret at 1.
  destruct (dict_get d "context_to_pass" (VDict ∅)) as [| | | | |ctx|] eqn:Hctx;
    try (intros [= <- <-]; left; eauto; fail).
  cbn [unpack_merge]. unfold bind at 1, ret at 1. unfold bind at 1, store at 1.
  set (req' := AgentInput.set_payload (ctx ∪ AgentInput.payload req) req).
  set (st2 := set_heap (<[r:=req']> (heap st1)) st1).
  assert (Hheap2 : heap st2 = <[r:=req']> (heap st)).
  { unfold st2. simpl. rewrite Hheap1. reflexivity. }
  intros Hrest. right. exists d, ctx, st1.
  split; [reflexivity|]. split; [exact Hctx|].
  assert (Hload : load r st2 = (Ret req', st2)).
  { apply load_run. rewrite Hheap2. apply lookup_insert_eq. }
  revert Hrest. unfold AgentRegistry_get.
  destruct (dict_get d "target_agent" (VStr "customer_support"))
    as [| | |a| | |] eqn:Htarget; cbn [hashable];
    try (intros [= <- <-]; split; [exact Hheap2|]; left; eauto; fail);
    try (intros [= <- <-]; split; [exact Hheap2|]; right; left;
         eexists; repeat split; reflexivity).
  unfold bind at 1, ret at 1.
  destruct (registry !! a) as [agent|] eqn:Hagent.
  - rewrite (bind_Ret _ _ _ _ _ Hload).
    unfold bind at 1, call_agent at 1.
    destruct (agent req' st2) as [res0|e] eqn:Hcall.
    + intros [= <- <-]. split; [exact Hheap2|]. right. right.
      exists a, agent, st2, res0. repeat split; try assumption; reflexivity.
    + intros [= <- <-]. split; [exact Hheap2|]. left. eauto.
  - intros [= <- <-]. split; [exact Hheap2|]. right. left.
    eexists. repeat split; reflexivity.
Qed.

Lemma route_and_dispatch_dangling W self registry r st :
  heap st !! r = None ->
  exists e, route_and_dispatch W self registry r st = (Raise e, st).
Proof.
  intros Hnone. unfold route_and_dispatch, bind, load. rewrite Hnone. eauto.
Qed.

(** [process] unfolded after its first reading of the clock. *)
Lemma process_unfold W self registry r st :
  process W self registry r st =
    try_except
      (process_try W self registry r (time_at W (clock st)))
      (orchestration_error W (time_at W (clock st)))
      (advance_clock st).
Proof. reflexivity. Qed.

Lemma process_try_unfold W self registry r start_time st :
  process_try W self registry r start_time st =
    match route_and_dispatch W self registry r st with
    | (Ret (inl out), st1) => (Ret out, st1)
    | (Ret (inr result), st1) => log_and_return W self r start_time result st1
    | (Raise e, st1) => (Raise e, st1)
    end.
Proof.
  unfold process_try, bind.
  destruct (route_and_dispatch W self registry r st) as [[[out|result]|e] st1];
    reflexivity.
Qed.

(** The audit step, once the request object is known. *)
Lemma log_and_return_run W self r start_time result st input_data :
  heap st !! r = Some input_data ->
  log_and_return W self r start_time result st =
    match logger_emit W "agent_action"
            (audit_fields self input_data result
               (latency_ms start_time (time_at W (clock st))) no_tokens)
            (advance_clock st) with
    | Some e => (Raise e, advance_clock st)
    | None =>
        (Ret result,
         record_event
           (EvLog "agent_action"
              (audit_fields self input_data result
                 (latency_ms start_time (time_at W (clock st))) no_tokens))
           (advance_clock st))
    end.
Proof.
  intros Hreq. unfold log_and_return.
  rewrite (bind_Ret _ _ st (time_at W (clock st)) (advance_clock st)) by reflexivity.
  rewrite (bind_Ret _ _ _ _ _ (load_run r (advance_clock st) input_data Hreq)).
  unfold bind, log_action, logger_call.
  destruct (logger_emit W "agent_action" _ (advance_clock st)); reflexivity.
Qed.





(** ** The failure side of the response envelope *)

(** C6, as amended.  [process] always returns, and its response is of one
    of three kinds.  A catch-all failure: not successful, code
    [ORCHESTRATION_ERROR], error equal to [str(e)] for the exception [e]
    the body raised, hence non-empty exactly when that string is.  A
    routing failure: not successful, code [AGENT_NOT_FOUND], a non-empty
    error, the decision under [routing_decision].  Or the response of a
    registered agent, forwarded with the success flag, error, code and data
    the agent gave it. *)
Theorem process_failure_envelope W self registry r st :
  exists out st',
    process W self registry r st = (Ret out, st')
    /\ ((AgentOutput.success out = false
         /\ AgentOutput.error_code out = Some "ORCHESTRATION_ERROR"
         /\ exists e st1,
              process_try W self registry r (time_at W (clock st)) (advance_clock st)
                = (Raise e, st1)
              /\ AgentOutput.error out = Some (exn_str e))
        \/ (AgentOutput.success out = false
            /\ AgentOutput.error_code out = Some "AGENT_NOT_FOUND"
            /\ is_Some (AgentOutput.data out !! "routing_decision")
            /\ exists msg, AgentOutput.error out = Some msg /\ msg <> "")
        \/ (exists a agent input_data st_a res0,
              registry !! a = Some agent
              /\ agent input_data st_a = Ret res0
              /\ AgentOutput.success out = AgentOutput.success res0
              /\ AgentOutput.error out = AgentOutput.error res0
              /\ AgentOutput.error_code out = AgentOutput.error_code res0
              /\ AgentOutput.data out = AgentOutput.data res0)).
Proof.
  rewrite process_unfold.
  destruct (process_try W self registry r (time_at W (clock st)) (advance_clock st))
    as [[out|e] st1] eqn:Hbody.
  2:{ eexists _, _. split.
      - rewrite (try_except_Raise _ _ _ _ _ Hbody). apply orchestration_error_run.
      - left. split; [reflexivity|]. split; [reflexivity|].
        exists e, st1. split; reflexivity. }
  exists out, st1. split; [apply try_except_Ret; exact Hbody|].
  right. rewrite process_try_unfold in Hbody.
  destruct (heap (advance_clock st) !! r) as [req|] eqn:Hreq.
  2:{ destruct (route_and_dispatch_dangling W self registry r _ Hreq) as (e & He).
      rewrite He in Hbody. discriminate Hbody. }
  destruct (route_and_dispatch W self registry r (advance_clock st))
    as [res1 st2] eqn:Hrd.
  destruct (route_and_dispatch_spec _ _ _ _ _ _ _ _ Hreq Hrd)
    as [(e & -> & _) | (d & ctx & st3 & _ & _ & Hheap & Hres)];
    [discriminate Hbody|].
  destruct Hres as [(e & ->) | [(o & -> & Hs & Hc & He & Hd)
                               | (a & agent & st4 & res0 & _ & Ha & Hcall & _ & -> & ->)]].
  - discriminate Hbody.
  - injection Hbody as <- <-. left.
    split; [exact Hs|]. split; [exact Hc|]. split.
    + rewrite Hd. rewrite lookup_singleton_eq. eauto.
    + eexists. split; [exact He|]. discriminate.
  - right. eexists a, agent, _, st4, res0.
    split; [exact Ha|]. split; [exact Hcall|].
    erewrite log_and_return_run in Hbody.
    2:{ rewrite Hheap. apply lookup_insert_eq. }
    destruct (logger_emit _ _ _ _); [discriminate Hbody|].
    injection Hbody as <- _. repeat split; reflexivity.
Qed.

(** C6 as stated fails on the catch-all path: an agent raises an exception
    whose [str] is empty, and [process] answers with a failure whose error
    is the empty string. *)
Lemma orchestration_error_with_empty_message :
  let W := Sample.world Sample.unreachable Sample.quiet in
  let req := Sample.request {[ "intent" := VStr "safety_check" ]} in
  exists out st',
    process W Sample.orchestrator Sample.registry 0 (Sample.initial req) = (Ret out, st')
    /\ AgentOutput.success out = false
    /\ AgentOutput.error_code out = Some "ORCHESTRATION_ERROR"
    /\ AgentOutput.error out = Some "".
Proof. eexists _, _. split; [vm_compute; reflexivity|]. repeat split. Qed.

(** ** The audit sink *)

(** C8, as amended.  Once the target agent has answered and its result has
    been annotated, [process] calls [log_action] inside its [try]
    statement.  If the logger returns, the caller receives the agent's
    annotated result; if the logger raises [e], the exception is caught by
    the top-level handler and the caller receives a failure with code
    [ORCHESTRATION_ERROR] and error [str(e)] in place of the agent's result.
    In both cases [process] returns. *)
Theorem audit_failure_reaches_caller W self registry r st result st1 :
  route_and_dispatch W self registry r (advance_clock st) = (Ret (inr result), st1) ->
  exists input_data,
    heap st1 !! r = Some input_data
    /\ match logger_emit W "agent_action"
               (audit_fields self input_data result
                  (latency_ms (time_at W (clock st)) (time_at W (clock st1)))
                  no_tokens)
               (advance_clock st1) with
       | None =>
           exists st', process W self registry r st = (Ret result, st')
       | Some e =>
           exists out st',
             process W self registry r st = (Ret out, st')
             /\ AgentOutput.success out = false
             /\ AgentOutput.error out = Some (exn_str e)
             /\ AgentOutput.error_code out = Some "ORCHESTRATION_ERROR"
             /\ AgentOutput.data out = ∅
       end.
Proof.
  intros Hrd.
  destruct (heap (advance_clock st) !! r) as [req|] eqn:Hreq.
  2:{ destruct (route_and_dispatch_dangling W self registry r _ Hreq) as (e & He).
      rewrite He in Hrd. discriminate Hrd. }
  destruct (route_and_dispatch_spec _ _ _ _ _ _ _ _ Hreq Hrd)
    as [(e & [=] & _) | (d & ctx & st2 & _ & _ & Hheap & _)].
  eexists. split; [rewrite Hheap; apply lookup_insert_eq|].
  rewrite process_unfold.
  assert (Hbody :
    process_try W self registry r (time_at W (clock st)) (advance_clock st) =
    log_and_return W self r (time_at W (clock st)) result st1).
  { rewrite process_try_unfold, Hrd. reflexivity. }
  erewrite log_and_return_run in Hbody
    by (rewrite Hheap; apply lookup_insert_eq).
  destruct (logger_emit _ _ _ _) as [e|].
  - eexists _, _. split.
    + rewrite (try_except_Raise _ _ _ _ _ Hbody). apply orchestration_error_run.
    + repeat split; reflexivity.
  - eexists. apply try_except_Ret. exact Hbody.
Qed.

Lemma audit_failure_reaches_caller_witness :
  let W := Sample.world Sample.unreachable Sample.broken in
  let req := Sample.request {[ "intent" := VStr "search_medicine" ]} in
  exists out st',
    process W Sample.orchestrator Sample.registry 0 (Sample.initial req) = (Ret out, st')
    /\ AgentOutput.error out = Some "audit sink unavailable".
Proof.
  intros W req.
  destruct (route_and_dispatch W Sample.orchestrator Sample.registry 0
              (advance_clock (Sample.initial req))) as [[[o|result]|e] st1] eqn:Hrd;
    [vm_compute in Hrd; discriminate Hrd | | vm_compute in Hrd; discriminate Hrd].
  destruct (audit_failure_reaches_caller W Sample.orchestrator Sample.registry 0
              (Sample.initial req) result st1 Hrd) as (input_data & _ & Hlog).
  change (logger_emit W) with Sample.broken in Hlog. cbn [Sample.broken] in Hlog.
  destruct Hlog as (out & st' & Hrun & _ & Herr & _).
  exists out, st'. split; [exact Hrun | exact Herr].
Defined.

(** C8 as stated fails: the target agent succeeds, the logger raises, and
    the caller receives a failure instead of the agent's result. *)
Lemma logger_failure_fails_request :
  let W := Sample.world Sample.unreachable Sample.broken in
  let req := Sample.request {[ "intent" := VStr "search_medicine" ]} in
  exists out st' input_data,
    process W Sample.orchestrator Sample.registry 0 (Sample.initial req) = (Ret out, st')
    /\ trace st' = [EvAgent (VStr "medicine_search") input_data]
    /\ Sample.registry !! "medicine_search" = Some (Sample.succeeds {[ "x" := VInt 1 ]})
    /\ AgentOutput.success out = false
    /\ AgentOutput.error_code out = Some "ORCHESTRATION_ERROR"
    /\ AgentOutput.error out = Some "audit sink unavailable"
    /\ AgentOutput.data out = ∅.
Proof.
  eexists _, _, _. split; [vm_compute; reflexivity|].
  repeat split; reflexivity.
Qed.

(** ** The workflow engine *)

(** One iteration of the loop, outcome by outcome. *)
Lemma workflow_loop_step W registry workflow_name input_data step steps
    results context st :
  workflow_loop W registry workflow_name input_data (step :: steps) results context st =
    match step !! "agent" with
    | None => (Raise (Exn KeyError "'agent'"), st)
    | Some agent_type =>
        if hashable agent_type then
          match (match agent_type with VStr a => registry !! a | _ => None end) with
          | None =>
              new_AgentOutput W false ∅
                (Some ("Agent " +:+ py_str W agent_type +:+ " not found in workflow"))
                (Some "WORKFLOW_AGENT_MISSING") ∅ st
          | Some agent =>
              match dict_get step "payload" (VDict ∅) with
              | VDict overrides =>
                  let step_input := step_request W input_data context overrides st in
                  let st1 := advance_clock (advance_uuids st) in
                  let st2 := record_event (EvAgent agent_type step_input) st1 in
                  match agent step_input st1 with
                  | Raise e => (Raise e, st2)
                  | Ret result =>
                      if negb (AgentOutput.success result)
                         && negb (truthy (dict_get step "continue_on_error" VNone))
                      then
                        new_AgentOutput W false
                          {[ "results" := VList (results ++ [log_entry agent_type result]) ]}
                          (Some ("Workflow failed at step " +:+ py_str W agent_type))
                          (Some "WORKFLOW_FAILED") ∅ st2
                      else
                        workflow_loop W registry workflow_name input_data steps
                          (results ++ [log_entry agent_type result])
                          (AgentOutput.data result ∪ context) st2
                  end
              | v =>
                  (Raise (Exn TypeError
                            ("'" +:+ type_name v +:+ "' object is not a mapping")), st)
              end
          end
        else (Raise (unhashable agent_type), st)
    end.
Proof.
  cbn [workflow_loop]. unfold bind at 1, dict_index.
  destruct (step !! "agent") as [agent_type|]; [|reflexivity].
  unfold ret at 1. unfold bind at 1, AgentRegistry_get.
  destruct (hashable agent_type) eqn:Hhash; [|reflexivity].
  assert (Hget :
    (match agent_type with VStr s => ret (registry !! s) | _ => ret None end) st =
    (Ret (match agent_type with VStr a => registry !! a | _ => None end), st)).
  { destruct agent_type; reflexivity. }
  rewrite Hget. clear Hget.
  destruct (match agent_type with VStr a => registry !! a | _ => None end)
    as [agent|]; [|reflexivity].
  unfold bind at 1.
  destruct (dict_get step "payload" (VDict ∅)) as [| | | | |overrides|];
    try reflexivity.
  cbn [unpack_merge]. unfold ret at 1.
  unfold bind at 1. rewrite new_AgentInput_run.
  unfold bind at 1, call_agent at 1. cbn zeta.
  change (AgentInput.mk _ _ None _ _ (overrides ∪ context) ∅)
    with (step_request W input_data context overrides st).
  destruct (agent _ _) as [result|e]; [|reflexivity].
  destruct (negb _ && negb _); reflexivity.
Qed.

(** C4, as amended.  Whenever the loop reaches a step, with whatever results
    log and context it has accumulated:
    - if the step's agent identifier is not registered, the workflow returns
      at once a failure with code [WORKFLOW_AGENT_MISSING], whatever the
      step's [continue_on_error] says; no agent is called, and the data of
      this response is empty;
    - if the step's agent returns a failure and the step has not opted into
      [continue_on_error], the workflow returns at once a failure with code
      [WORKFLOW_FAILED] whose data holds the results log accumulated so far,
      the failing step's entry last; the only call made is the one to this
      step's agent;
    - hence for two steps, the first of which fails without
      [continue_on_error], the second agent is never called and the log has
      exactly the first step's entry. *)
Theorem workflow_fatal_aborts W registry workflow_name input_data step rest
    results context st :
  (forall a,
     step !! "agent" = Some (VStr a) ->
     registry !! a = None ->
     exists out st',
       workflow_loop W registry workflow_name input_data (step :: rest)
         results context st = (Ret out, st')
       /\ AgentOutput.success out = false
       /\ AgentOutput.error_code out = Some "WORKFLOW_AGENT_MISSING"
       /\ AgentOutput.data out = ∅
       /\ trace st' = trace st)
  /\ (forall a agent overrides result,
        step !! "agent" = Some (VStr a) ->
        registry !! a = Some agent ->
        dict_get step "payload" (VDict ∅) = VDict overrides ->
        agent (step_request W input_data context overrides st)
              (advance_clock (advance_uuids st)) = Ret result ->
        AgentOutput.success result = false ->
        truthy (dict_get step "continue_on_error" VNone) = false ->
        exists out st',
          workflow_loop W registry workflow_name input_data (step :: rest)
            results context st = (Ret out, st')
          /\ AgentOutput.success out = false
          /\ AgentOutput.error_code out = Some "WORKFLOW_FAILED"
          /\ AgentOutput.data out =
               {[ "results" := VList (results ++ [log_entry (VStr a) result]) ]}
          /\ trace st' =
               trace st ++ [EvAgent (VStr a) (step_request W input_data context overrides st)])
  /\ (forall a agent overrides result step_b,
        step !! "agent" = Some (VStr a) ->
        registry !! a = Some agent ->
        dict_get step "payload" (VDict ∅) = VDict overrides ->
        agent (step_request W input_data (AgentInput.payload input_data) overrides st)
              (advance_clock (advance_uuids st)) = Ret result ->
        AgentOutput.success result = false ->
        truthy (dict_get step "continue_on_error" VNone) = false ->
        exists out st',
          execute_workflow W registry workflow_name input_data [step; step_b] st
            = (Ret out, st')
          /\ AgentOutput.error_code out = Some "WORKFLOW_FAILED"
          /\ AgentOutput.data out = {[ "results" := VList [log_entry (VStr a) result] ]}
          /\ trace st' =
               trace st ++ [EvAgent (VStr a)
                              (step_request W input_data (AgentInput.payload input_data)
                                 overrides st)]).
Proof.
  assert (Hfailed : forall steps results context a agent overrides result,
    step !! "agent" = Some (VStr a) ->
    registry !! a = Some agent ->
    dict_get step "payload" (VDict ∅) = VDict overrides ->
    agent (step_request W input_data context overrides st)
          (advance_clock (advance_uuids st)) = Ret result ->
    AgentOutput.success result = false ->
    truthy (dict_get step "continue_on_error" VNone) = false ->
    exists out st',
      workflow_loop W registry workflow_name input_data (step :: steps)
        results context st = (Ret out, st')
      /\ AgentOutput.success out = false
      /\ AgentOutput.error_code out = Some "WORKFLOW_FAILED"
      /\ AgentOutput.data out =
           {[ "results" := VList (results ++ [log_entry (VStr a) result]) ]}
      /\ trace st' =
           trace st ++ [EvAgent (VStr a) (step_request W input_data context overrides st)]).
  { intros steps results0 context0 a agent overrides result
      Hagent Hreg Hpayload Hcall Hfail Hcont.
    rewrite workflow_loop_step, Hagent. cbn [hashable]. rewrite Hreg, Hpayload.
    cbn zeta. rewrite Hcall, Hfail, Hcont. cbn [negb andb].
    rewrite new_AgentOutput_run. eexists _, _. repeat split; reflexivity. }
  split; [|split].
  - intros a Hagent Hreg.
    rewrite workflow_loop_step, Hagent. cbn [hashable]. rewrite Hreg.
    rewrite new_AgentOutput_run. eexists _, _. repeat split; reflexivity.
  - apply Hfailed.
  - intros a agent overrides result step_b Hagent Hreg Hpayload Hcall Hfail Hcont.
    destruct (Hfailed [step_b] [] (AgentInput.payload input_data) a agent overrides
                result Hagent Hreg Hpayload Hcall Hfail Hcont)
      as (out & st' & Hrun & _ & Hcode & Hdata & Htrace).
    exists out, st'. repeat split; assumption.
Qed.

Lemma workflow_fatal_aborts_witness :
  let W := Sample.world Sample.unreachable Sample.quiet in
  let req := Sample.request {[ "items" := VList [] ]} in
  let step_a : gmap string val := {[ "agent" := VStr "order_processing" ]} in
  let step_b : gmap string val := {[ "agent" := VStr "customer_support" ]} in
  exists out st',
    execute_workflow W Sample.registry "checkout" req [step_a; step_b]
      (Sample.initial req) = (Ret out, st')
    /\ AgentOutput.error_code out = Some "WORKFLOW_FAILED"
    /\ length (trace st') = 1%nat.
Proof.
  intros W req step_a step_b.
  destruct (workflow_fatal_aborts W Sample.registry "checkout" req step_a [step_b]
              [] (AgentInput.payload req) (Sample.initial req)) as (_ & _ & Htwo).
  destruct (Htwo "order_processing" Sample.fails ∅
              (AgentOutput.mk false "out" 0 ∅ (Some "no stock") (Some "OUT_OF_STOCK")
                 ∅ 1 false) step_b)
    as (out & st' & Hrun & Hcode & _ & Htrace); try reflexivity.
  exists out, st'. split; [exact Hrun|]. split; [exact Hcode|].
  rewrite Htrace. reflexivity.
Defined.

(** C4 as stated fails for the missing agent: the first step runs and
    succeeds, the second names an agent that is not registered, and the
    response carries no results log although one step has been executed. *)
Lemma missing_agent_drops_results :
  let W := Sample.world Sample.unreachable Sample.quiet in
  let req := Sample.request {[ "query" := VStr "ibuprofen" ]} in
  let step_a : gmap string val := {[ "agent" := VStr "medicine_search" ]} in
  let step_b : gmap string val := {[ "agent" := VStr "delivery" ]} in
  exists out st' input_a,
    execute_workflow W Sample.registry "search_and_ship" req [step_a; step_b]
      (Sample.initial req) = (Ret out, st')
    /\ Sample.registry !! "delivery" = None
    /\ trace st' = [EvAgent (VStr "medicine_search") input_a]
    /\ AgentOutput.error_code out = Some "WORKFLOW_AGENT_MISSING"
    /\ AgentOutput.data out !! "results" = None
    /\ AgentOutput.data out = ∅.
Proof.
  eexists _, _, _. split; [vm_compute; reflexivity|].
  repeat split; reflexivity.
Qed.

Lemma merge_results_snoc context rs r :
  merge_results context (rs ++ [r]) = AgentOutput.data r ∪ merge_results context rs.
Proof. unfold merge_results. rewrite foldl_snoc. reflexivity. Qed.

(** A loop that ends in a success has called the agent of every step, in
    order, each on the context accumulated before it. *)
Lemma workflow_loop_completed W registry workflow_name input_data steps :
  forall results context st out st',
    workflow_loop W registry workflow_name input_data steps results context st
      = (Ret out, st') ->
    AgentOutput.success out = true ->
    exists calls rs,
      length calls = length steps
      /\ length rs = length steps
      /\ trace st' = trace st ++ (call_event <$> calls)
      /\ (forall i step,
            steps !! i = Some step ->
            exists a agent overrides input_i r st_i,
              step !! "agent" = Some (VStr a)
              /\ registry !! a = Some agent
              /\ dict_get step "payload" (VDict ∅) = VDict overrides
              /\ calls !! i = Some (VStr a, input_i)
              /\ rs !! i = Some r
              /\ agent input_i st_i = Ret r
              /\ AgentInput.payload input_i =
                   overrides ∪ merge_results context (take i rs))
      /\ AgentOutput.data out =
           <["workflow" := VStr workflow_name]>
           (<["results" := VList (results ++ results_log calls rs)]>
           (<["final_context" := VDict (merge_results context rs)]> ∅))
      /\ AgentOutput.error out = None
      /\ AgentOutput.error_code out = None.
Proof.
  induction steps as [|step steps IH]; intros results context st out st' Hrun Hok.
  - cbn [workflow_loop] in Hrun. rewrite new_AgentOutput_run in Hrun.
    injection Hrun as <- <-. exists [], [].
    split; [reflexivity|]. split; [reflexivity|].
    split; [cbn; rewrite app_nil_r; reflexivity|].
    split; [intros i step Hi; rewrite lookup_nil in Hi; discriminate Hi|].
    cbn. rewrite app_nil_r. repeat split; reflexivity.
  - rewrite workflow_loop_step in Hrun.
    destruct (step !! "agent") as [agent_type|] eqn:Hagent; [|discriminate Hrun].
    destruct (hashable agent_type); [|discriminate Hrun].
    destruct (match agent_type with VStr a => registry !! a | _ => None end)
      as [agent|] eqn:Hreg.
    2:{ rewrite new_AgentOutput_run in Hrun. injection Hrun as <- _.
        discriminate Hok. }
    destruct agent_type as [| | |a| | |]; try discriminate Hreg.
    destruct (dict_get step "payload" (VDict ∅)) as [| | | | |overrides|] eqn:Hpayload;
      try discriminate Hrun.
    cbn zeta in Hrun.
    destruct (agent _ _) as [result|e] eqn:Hcall; [|discriminate Hrun].
    destruct (negb _ && negb _).
    { rewrite new_AgentOutput_run in Hrun. injection Hrun as <- _.
      discriminate Hok. }
    destruct (IH _ _ _ _ _ Hrun Hok)
      as (calls & rs & Hlc & Hlr & Htrace & Hsteps & Hdata & Herr & Hcode).
    exists ((VStr a, step_request W input_data context overrides st) :: calls),
           (result :: rs).
    split; [cbn; congruence|]. split; [cbn; congruence|].
    split.
    { rewrite Htrace. cbn. rewrite <- app_assoc. reflexivity. }
    split.
    { intros [|i] step' Hi.
      - injection Hi as <-.
        eexists a, agent, overrides, _, result, _.
        repeat split; try eassumption; reflexivity.
      - destruct (Hsteps i step' Hi)
          as (a' & agent' & ov' & input_i & r & st_i & H1 & H2 & H3 & H4 & H5 & H6 & H7).
        exists a', agent', ov', input_i, r, st_i.
        repeat split; assumption. }
    rewrite Hdata. cbn [results_log zip_with fst snd].
    rewrite <- app_assoc. repeat split; assumption.
Qed.






(** ** The model call *)

(** [call_llm], outcome by outcome. *)
Lemma call_llm_run W self messages tools response_format temperature st :
  let params := llm_request self messages tools response_format temperature in
  let st1 := record_event (EvLLM params) st in
  call_llm W self messages tools response_format temperature st =
    match read_completion (completions_create W params st) with
    | inl result => (Ret result, st1)
    | inr e =>
        match logger_emit W "llm_call_failed" {[ "error" := VStr (exn_str e) ]} st1 with
        | Some e' => (Raise e', st1)
        | None =>
            (Ret (llm_failure e),
             record_event (EvLog "llm_call_failed" {[ "error" := VStr (exn_str e) ]}) st1)
        end
    end.
Proof.
  cbn zeta. unfold call_llm, try_except, try_except_if, llm_request.
  unfold bind at 1, call_provider at 1, read_completion.
  destruct (completions_create W _ st) as [response|e].
  - destruct (Completion.choices response) as [|choice choices].
    + unfold raise at 1, bind, logger_call.
      destruct (logger_emit W _ _ _); reflexivity.
    + destruct (Completion.usage response) as [usage|].
      * reflexivity.
      * unfold raise at 1, bind, logger_call.
        destruct (logger_emit W _ _ _); reflexivity.
  - unfold bind, logger_call.
    destruct (logger_emit W _ _ _); reflexivity.
Qed.

(** X1.  [call_llm] answers with a successful result, carrying the content
    and tool calls of the first choice, exactly when the provider returns a
    completion that has a choice and usage data.  In every other case (the
    provider raises, the completion has no choice, or no usage) it logs
    [llm_call_failed] and answers with [success] false, no content and the
    text of the exception as error.  It raises only when that logger call
    raises.  It reads no clock, draws no identifier and writes no request
    object. *)
Theorem call_llm_outcomes W self messages tools response_format temperature st :
  let params := llm_request self messages tools response_format temperature in
  exists res st',
    call_llm W self messages tools response_format temperature st = (res, st')
    /\ clock st' = clock st /\ uuids st' = uuids st /\ heap st' = heap st
    /\ match res with
       | Ret result =>
           if LLMResult.success result then
             exists response choice,
               completions_create W params st = Ret response
               /\ head (Completion.choices response) = Some choice
               /\ is_Some (Completion.usage response)
               /\ LLMResult.content result = Completion.message_content choice
               /\ LLMResult.tool_calls result = Completion.message_tool_calls choice
               /\ LLMResult.error result = None
           else
             exists e,
               read_completion (completions_create W params st) = inr e
               /\ result = llm_failure e
               /\ LLMResult.content result = None
               /\ LLMResult.error result = Some (exn_str e)
               /\ trace st' =
                    trace st ++ [EvLLM params;
                                 EvLog "llm_call_failed" {[ "error" := VStr (exn_str e) ]}]
       | Raise e' =>
           exists e,
             read_completion (completions_create W params st) = inr e
             /\ logger_emit W "llm_call_failed" {[ "error" := VStr (exn_str e) ]}
                  (record_event (EvLLM params) st) = Some e'
       end.
Proof.
  cbn zeta. rewrite call_llm_run. cbn zeta.
  destruct (read_completion _) as [result|e] eqn:Hread.
  - eexists _, _. split; [reflexivity|]. repeat (split; [reflexivity|]).
    unfold read_completion in Hread.
    destruct (completions_create W _ st) as [response|e]; [|discriminate Hread].
    destruct (Completion.choices response) as [|choice choices] eqn:Hchoices;
      [discriminate Hread|].
    destruct (Completion.usage response) as [usage|] eqn:Husage;
      [|discriminate Hread].
    injection Hread as <-. cbn.
    exists response, choice. rewrite Hchoices, Husage.
    repeat split; eauto.
  - destruct (logger_emit W _ _ _) as [e'|] eqn:Hlog.
    + eexists _, _. split; [reflexivity|]. repeat (split; [reflexivity|]).
      exists e. split; [reflexivity | exact Hlog].
    + eexists _, _. split; [reflexivity|]. repeat (split; [reflexivity|]).
      cbn. exists e. repeat split. rewrite <- app_assoc. reflexivity.
Qed.

(** The trace of [call_llm]: the request, then at most the failure log. *)
Lemma call_llm_trace W self messages tools response_format temperature st :
  exists res st' rest,
    call_llm W self messages tools response_format temperature st = (res, st')
    /\ trace st' =
         trace st ++ EvLLM (llm_request self messages tools response_format temperature)
                       :: rest
    /\ provider_calls rest = 0%nat /\ agent_calls rest = 0%nat.
Proof.
  rewrite call_llm_run. cbn zeta.
  destruct (read_completion _) as [result|e].
  - eexists _, _, []. repeat split; reflexivity.
  - destruct (logger_emit W _ _ _) as [e'|].
    + eexists _, _, []. repeat split; reflexivity.
    + eexists _, _, [_]. split; [reflexivity|]. split.
      * cbn. rewrite <- app_assoc. reflexivity.
      * split; reflexivity.
Qed.

(** X2.  Whatever the provider does, [call_llm] sends it exactly one
    request and never a second one.  The request carries the agent's model
    and output limit and the messages as given; its temperature is the
    override, unless the override is absent or zero, in which case it is the
    agent's own; the [tools] key is set exactly when the agent's tools and
    the extra tools are not both empty, to the agent's tools followed by the
    extra ones; an empty response format is left out. *)
Theorem call_llm_single_request W self messages tools response_format temperature st :
  let params := llm_request self messages tools response_format temperature in
  exists res st' rest,
    call_llm W self messages tools response_format temperature st = (res, st')
    /\ trace st' = trace st ++ EvLLM params :: rest
    /\ provider_calls (trace st') = S (provider_calls (trace st))
    /\ agent_calls (trace st') = agent_calls (trace st)
    /\ Params.model params = BaseAgent.model self
    /\ Params.messages params = messages
    /\ Params.max_tokens params = BaseAgent.max_tokens self
    /\ (forall t, temperature = Some t -> ~ (t == 0)%Q -> Params.temperature params = t)
    /\ (forall t, temperature = Some t -> (t == 0)%Q ->
          Params.temperature params = BaseAgent.temperature self)
    /\ (temperature = None -> Params.temperature params = BaseAgent.temperature self)
    /\ (Params.tools params = None <->
          BaseAgent.tools self = [] /\ default [] tools = [])
    /\ (forall l, Params.tools params = Some l ->
          l = (to_openai_function <$> BaseAgent.tools self)
                ++ (to_openai_function <$> default [] tools))
    /\ (response_format = Some ∅ -> Params.response_format params = None).
Proof.
  cbn zeta.
  destruct (call_llm_trace W self messages tools response_format temperature st)
    as (res & st' & rest & Hrun & Htrace & Hp & Ha).
  exists res, st', rest. split; [exact Hrun|]. split; [exact Htrace|].
  split.
  { rewrite Htrace. unfold provider_calls in *.
    rewrite filter_app, length_app, filter_cons_True by reflexivity.
    cbn [length]. rewrite Hp. lia. }
  split.
  { rewrite Htrace. unfold agent_calls in *.
    rewrite filter_app, length_app, filter_cons_False by discriminate.
    rewrite Ha. lia. }
  split; [reflexivity|]. split; [reflexivity|]. split; [reflexivity|].
  split.
  { intros t -> Ht. cbn. destruct (Qeq_bool t 0) eqn:E; [|reflexivity].
    apply Qeq_bool_eq in E. contradiction. }
  split.
  { intros t -> Ht. cbn. rewrite (Qeq_eq_bool _ _ Ht). reflexivity. }
  split; [intros ->; reflexivity|].
  split.
  { cbn. destruct (BaseAgent.tools self ++ default [] tools) eqn:Happ.
    - apply app_eq_nil in Happ. tauto.
    - split; [discriminate|]. intros [H1 H2]. rewrite H1, H2 in Happ.
      discriminate Happ. }
  split.
  { cbn. intros l.
    destruct (BaseAgent.tools self ++ default [] tools) eqn:Happ; [discriminate|].
    intros [= <-]. rewrite <- fmap_app, Happ. reflexivity. }
  intros ->. reflexivity.
Qed.

(** X3.  An agent built by [BaseAgent.__init__] from settings whose default
    temperature is not zero never asks the provider for temperature zero:
    a zero passed to the constructor is replaced by the default, and a zero
    passed to [call_llm] by the agent's temperature. *)
Theorem temperature_zero_is_never_sent W settings agent_type system_prompt model
    agent_temperature max_tokens agent_tools messages tools response_format
    temperature st :
  ~ (Settings.OPENAI_TEMPERATURE settings == 0)%Q ->
  let self :=
    BaseAgent_init settings agent_type system_prompt model agent_temperature
      max_tokens agent_tools in
  exists res st' params rest,
    call_llm W self messages tools response_format temperature st = (res, st')
    /\ trace st' = trace st ++ EvLLM params :: rest
    /\ ~ (Params.temperature params == 0)%Q.
Proof.
  intros Hdefault self.
  destruct (call_llm_trace W self messages tools response_format temperature st)
    as (res & st' & rest & Hrun & Htrace & _).
  exists res, st', (llm_request self messages tools response_format temperature),
    rest.
  split; [exact Hrun|]. split; [exact Htrace|].
  assert (Hself : ~ (BaseAgent.temperature self == 0)%Q).
  { unfold self, BaseAgent_init. cbn.
    destruct agent_temperature as [t|]; [|exact Hdefault].
    destruct (Qeq_bool t 0) eqn:E; [exact Hdefault|].
    apply Qeq_bool_neq, E. }
  unfold llm_request. cbn [Params.temperature].
  destruct temperature as [t|]; [|exact Hself].
  destruct (Qeq_bool t 0) eqn:E; [exact Hself|].
  apply Qeq_bool_neq, E.
Qed.

Lemma temperature_zero_is_never_sent_witness :
  let W := Sample.world Sample.unreachable Sample.quiet in
  let settings := Settings.mk "gpt-4-1106-preview" (7 # 10) 2000 in
  let self := BaseAgent_init settings "orchestrator" "prompt" None (Some 0%Q) (Some 500%Z) None in
  exists res st' params rest,
    call_llm W self [] None None (Some 0%Q) (Sample.initial (Sample.request ∅)) = (res, st')
    /\ trace st' = EvLLM params :: rest
    /\ ~ (Params.temperature params == 0)%Q.
Proof.
  intros W settings self.
  apply (temperature_zero_is_never_sent W settings "orchestrator" "prompt" None
           (Some 0%Q) (Some 500%Z) None [] None None (Some 0%Q)
           (Sample.initial (Sample.request ∅))).
  unfold Qeq. cbn. lia.
Defined.

(** ** The tool boundary, continued *)






(** ** Dispatch *)

(** [route_and_dispatch] once the routing decision is known to be a
    dictionary whose context is a dictionary. *)
Lemma route_and_dispatch_routed W self registry r st req d ctx st1 :
  heap st !! r = Some req ->
  _analyze_and_route W self req st = (Ret (VDict d), st1) ->
  dict_get d "context_to_pass" (VDict ∅) = VDict ctx ->
  let req' := AgentInput.set_payload (ctx ∪ AgentInput.payload req) req in
  let st2 := set_heap (<[r := req']> (heap st1)) st1 in
  let target := dict_get d "target_agent" (VStr "customer_support") in
  route_and_dispatch W self registry r st =
    if hashable target then
      match (match target with VStr a => registry !! a | _ => None end) with
      | None =>
          (Ret (inl (agent_not_found W (VDict d) target st2)),
           advance_clock (advance_uuids st2))
      | Some agent =>
          match agent req' st2 with
          | Ret result =>
              (Ret (inr (annotate W (VDict d) (time_at W (clock st2)) result)),
               advance_clock (record_event (EvAgent target req') st2))
          | Raise e => (Raise e, record_event (EvAgent target req') st2)
          end
      end
    else (Raise (unhashable target), st2).
Proof.
  intros Hreq Hroute Hctx req' st2 target.
  unfold route_and_dispatch.
  rewrite (bind_Ret _ _ _ _ _ (load_run _ _ _ Hreq)).
  rewrite (bind_Ret _ _ _ _ _ Hroute).
  cbn [py_get]. unfold bind at 1, ret at 1. unfold bind at 1, ret at 1.
  rewrite Hctx. cbn [unpack_merge]. unfold bind at 1, ret at 1.
  unfold bind at 1, store at 1. fold req'. fold st2. fold target.
  unfold bind at 1, AgentRegistry_get.
  destruct (hashable target) eqn:Hhash; [|reflexivity].
  assert (Hget :
    (match target with VStr s => ret (registry !! s) | _ => ret None end) st2 =
    (Ret (match target with VStr a => registry !! a | _ => None end), st2)).
  { destruct target; reflexivity. }
  rewrite Hget. clear Hget.
  destruct (match target with VStr a => registry !! a | _ => None end) as [agent|].
  2:{ reflexivity. }
  assert (Hload : load r st2 = (Ret req', st2)).
  { apply load_run. unfold st2. cbn. apply lookup_insert_eq. }
  rewrite (bind_Ret _ _ _ _ _ Hload).
  unfold bind at 1, call_agent at 1.
  destruct (agent req' st2) as [result|e]; reflexivity.
Qed.

(** X6.  When the routing decision names a target that is hashable but not
    registered, [process] answers with a failure whose code is
    [AGENT_NOT_FOUND], whose error names the target and whose data holds the
    decision under [routing_decision].  Its metadata is empty: neither the
    decision nor an orchestration timestamp is attached.  No agent is called
    and no audit record is written, yet the payload of the caller's request
    object has already been replaced by the merged payload. *)
Theorem process_unknown_agent W self registry r st req d ctx st1 :
  heap st !! r = Some req ->
  _analyze_and_route W self req (advance_clock st) = (Ret (VDict d), st1) ->
  dict_get d "context_to_pass" (VDict ∅) = VDict ctx ->
  let target := dict_get d "target_agent" (VStr "customer_support") in
  hashable target = true ->
  (forall a, target = VStr a -> registry !! a = None) ->
  let req' := AgentInput.set_payload (ctx ∪ AgentInput.payload req) req in
  exists out st',
    process W self registry r st = (Ret out, st')
    /\ AgentOutput.success out = false
    /\ AgentOutput.error_code out = Some "AGENT_NOT_FOUND"
    /\ AgentOutput.error out = Some ("Agent " +:+ py_str W target +:+ " not found")
    /\ AgentOutput.data out = {[ "routing_decision" := VDict d ]}
    /\ AgentOutput.metadata out = ∅
    /\ trace st' = trace st1
    /\ heap st' !! r = Some req'.
Proof.
  intros Hreq Hroute Hctx target Hhash Hnone req'.
  assert (Hreq0 : heap (advance_clock st) !! r = Some req) by exact Hreq.
  pose proof (route_and_dispatch_routed W self registry r _ req d ctx st1
                Hreq0 Hroute Hctx) as Hrd.
  cbn zeta in Hrd. fold target in Hrd. fold req' in Hrd. rewrite Hhash in Hrd.
  assert (Hlookup : match target with VStr a => registry !! a | _ => None end = None).
  { destruct target; try reflexivity. apply Hnone. reflexivity. }
  rewrite Hlookup in Hrd.
  eexists _, _. split.
  { rewrite process_unfold. apply try_except_Ret.
    rewrite process_try_unfold, Hrd. reflexivity. }
  repeat split. cbn. apply lookup_insert_eq.
Qed.

Lemma process_unknown_agent_witness :
  let W := Sample.world Sample.unreachable Sample.quiet in
  let req := Sample.request {[ "intent" := VStr "payment" ]} in
  exists out st',
    process W Sample.orchestrator Sample.registry 0 (Sample.initial req) = (Ret out, st')
    /\ AgentOutput.error out = Some "Agent payment not found"
    /\ AgentOutput.metadata out = ∅
    /\ trace st' = [].
Proof.
  intros W req.
  destruct (process_unknown_agent W Sample.orchestrator Sample.registry 0
              (Sample.initial req) req
              (<["target_agent" := VStr "payment"]>
               (<["reasoning" := VStr "Explicit intent: payment"]>
               (<["context_to_pass" := VDict ∅]>
               (<["priority" := VStr "normal"]> ∅))))
              ∅ (advance_clock (Sample.initial req)))
    as (out & st' & Hrun & _ & _ & Herr & _ & Hmeta & Htrace & _).
  - reflexivity.
  - reflexivity.
  - reflexivity.
  - reflexivity.
  - intros a [= <-]. reflexivity.
  - exists out, st'. split; [exact Hrun|]. split; [exact Herr|].
    split; [exact Hmeta | exact Htrace].
Defined.

(** X7.  When the routing decision names a registered agent, that agent
    answers and the logger returns, [process] returns the agent's response
    with two metadata entries added, [routing] (the decision, as routed) and
    [orchestrated_at]; every other metadata entry and the success flag,
    data, error, error code, confidence, escalation flag, message identifier
    and timestamp are the agent's, so a failure reported by the agent reaches
    the caller as that failure.  The agent is called once, on the caller's
    request object with the merged payload, and one audit record follows
    that carries the agent's success flag. *)
Theorem process_forwards_agent_response W self registry r st req d ctx st1 a
    agent result :
  heap st !! r = Some req ->
  _analyze_and_route W self req (advance_clock st) = (Ret (VDict d), st1) ->
  dict_get d "context_to_pass" (VDict ∅) = VDict ctx ->
  dict_get d "target_agent" (VStr "customer_support") = VStr a ->
  registry !! a = Some agent ->
  let req' := AgentInput.set_payload (ctx ∪ AgentInput.payload req) req in
  let st2 := set_heap (<[r := req']> (heap st1)) st1 in
  agent req' st2 = Ret result ->
  let st3 := advance_clock (advance_clock (record_event (EvAgent (VStr a) req') st2)) in
  let fields :=
    audit_fields self req' (annotate W (VDict d) (time_at W (clock st2)) result)
      (latency_ms (time_at W (clock st)) (time_at W (S (clock st2)))) no_tokens in
  logger_emit W "agent_action" fields st3 = None ->
  exists out st',
    process W self registry r st = (Ret out, st')
    /\ AgentOutput.metadata out !! "routing" = Some (VDict d)
    /\ AgentOutput.metadata out !! "orchestrated_at"
         = Some (VStr (isoformat W (time_at W (clock st2))))
    /\ (forall k, k <> "routing" -> k <> "orchestrated_at" ->
          AgentOutput.metadata out !! k = AgentOutput.metadata result !! k)
    /\ AgentOutput.success out = AgentOutput.success result
    /\ AgentOutput.data out = AgentOutput.data result
    /\ AgentOutput.error out = AgentOutput.error result
    /\ AgentOutput.error_code out = AgentOutput.error_code result
    /\ AgentOutput.confidence out = AgentOutput.confidence result
    /\ AgentOutput.escalation_needed out = AgentOutput.escalation_needed result
    /\ AgentOutput.message_id out = AgentOutput.message_id result
    /\ AgentOutput.timestamp out = AgentOutput.timestamp result
    /\ trace st' = trace st1 ++ [EvAgent (VStr a) req'; EvLog "agent_action" fields]
    /\ fields !! "success" = Some (VBool (AgentOutput.success result)).
Proof.
  intros Hreq Hroute Hctx Htarget Hagent req' st2 Hcall st3 fields Hlog.
  assert (Hreq0 : heap (advance_clock st) !! r = Some req) by exact Hreq.
  pose proof (route_and_dispatch_routed W self registry r _ req d ctx st1
                Hreq0 Hroute Hctx) as Hrd.
  cbn zeta in Hrd. rewrite Htarget in Hrd. cbn [hashable] in Hrd.
  rewrite Hagent in Hrd. fold req' in Hrd. fold st2 in Hrd. rewrite Hcall in Hrd.
  assert (Hheap : heap (advance_clock (record_event (EvAgent (VStr a) req') st2)) !! r
                    = Some req').
  { cbn. apply lookup_insert_eq. }
  eexists _, _. split.
  { rewrite process_unfold. apply try_except_Ret.
    rewrite process_try_unfold, Hrd.
    rewrite (log_and_return_run _ _ _ _ _ _ _ Hheap).
    cbn [clock advance_clock record_event].
    unfold fields, st3 in Hlog. cbn [clock advance_clock record_event] in Hlog.
    rewrite Hlog. reflexivity. }
  split; [cbn; rewrite lookup_insert_ne by discriminate; apply lookup_insert_eq|].
  split; [cbn; apply lookup_insert_eq|].
  split.
  { intros k Hk1 Hk2. cbn. rewrite !lookup_insert_ne by congruence. reflexivity. }
  repeat (split; [reflexivity|]).
  split.
  { cbn. rewrite <- app_assoc. reflexivity. }
  reflexivity.
Qed.

Lemma process_forwards_agent_response_witness :
  let W := Sample.world Sample.unreachable Sample.quiet in
  let req := Sample.request {[ "intent" := VStr "create_order" ]} in
  exists out st',
    process W Sample.orchestrator Sample.registry 0 (Sample.initial req) = (Ret out, st')
    /\ AgentOutput.success out = false
    /\ AgentOutput.error_code out = Some "OUT_OF_STOCK"
    /\ length (trace st') = 2%nat.
Proof.
  intros W req.
  destruct (process_forwards_agent_response W Sample.orchestrator Sample.registry 0
              (Sample.initial req) req
              (<["target_agent" := VStr "order_processing"]>
               (<["reasoning" := VStr "Explicit intent: create_order"]>
               (<["context_to_pass" := VDict ∅]>
               (<["priority" := VStr "normal"]> ∅))))
              ∅ (advance_clock (Sample.initial req)) "order_processing" Sample.fails
              (AgentOutput.mk false "out" 0 ∅ (Some "no stock") (Some "OUT_OF_STOCK")
                 ∅ 1 false))
    as (out & st' & Hrun & _ & _ & _ & Hs & _ & _ & Hc & _ & _ & _ & _ & Htrace & _);
    try reflexivity.
  exists out, st'. split; [exact Hrun|]. split; [exact Hs|]. split; [exact Hc|].
  rewrite Htrace. reflexivity.
Defined.

(** ** Calls to collaborators *)

Lemma provider_calls_app l1 l2 :
  provider_calls (l1 ++ l2) = (provider_calls l1 + provider_calls l2)%nat.
Proof. unfold provider_calls. rewrite filter_app, length_app. reflexivity. Qed.

Lemma agent_calls_app l1 l2 :
  agent_calls (l1 ++ l2) = (agent_calls l1 + agent_calls l2)%nat.
Proof. unfold agent_calls. rewrite filter_app, length_app. reflexivity. Qed.

Lemma calls_within_mono {A} nl na nl' na' (m : M A) :
  nl <= nl' -> na <= na' -> calls_within nl na m -> calls_within nl' na' m.
Proof.
  intros Hl Ha Hm st res st' Hrun.
  destruct (Hm _ _ _ Hrun) as (evs & Htrace & H1 & H2).
  exists evs. split; [exact Htrace|]. split; lia.
Qed.

(** A computation that leaves the trace as it is. *)
Lemma calls_within_silent {A} (m : M A) :
  (forall st res st', m st = (res, st') -> trace st' = trace st) ->
  calls_within 0 0 m.
Proof.
  intros Hm st res st' Hrun. exists [].
  rewrite app_nil_r. split; [exact (Hm _ _ _ Hrun)|]. split; reflexivity.
Qed.

Lemma calls_within_ret {A} (a : A) : calls_within 0 0 (ret a).
Proof. apply calls_within_silent. intros st res st' [= _ <-]. reflexivity. Qed.

Lemma calls_within_raise {A} e : calls_within 0 0 (@raise A e).
Proof. apply calls_within_silent. intros st res st' [= _ <-]. reflexivity. Qed.

Lemma calls_within_bind {A B} nl na nl' na' (m : M A) (k : A -> M B) :
  calls_within nl na m -> (forall a, calls_within nl' na' (k a)) ->
  calls_within (nl + nl') (na + na') (bind m k).
Proof.
  intros Hm Hk st res st'. unfold bind.
  destruct (m st) as [[a|e] st1] eqn:E; intros H.
  - destruct (Hm _ _ _ E) as (evs1 & Ht1 & Hl1 & Ha1).
    destruct (Hk a _ _ _ H) as (evs2 & Ht2 & Hl2 & Ha2).
    exists (evs1 ++ evs2). rewrite Ht2, Ht1, <- app_assoc.
    split; [reflexivity|].
    rewrite provider_calls_app, agent_calls_app. split; lia.
  - injection H as _ <-.
    destruct (Hm _ _ _ E) as (evs1 & Ht1 & Hl1 & Ha1).
    exists evs1. split; [exact Ht1|]. split; lia.
Qed.

Lemma calls_within_try {A} nl na nl' na' catches (m : M A) h :
  calls_within nl na m -> (forall e, calls_within nl' na' (h e)) ->
  calls_within (nl + nl') (na + na') (try_except_if catches m h).
Proof.
  intros Hm Hh st res st'. unfold try_except_if.
  destruct (m st) as [[a|e] st1] eqn:E; intros H.
  - injection H as _ <-.
    destruct (Hm _ _ _ E) as (evs1 & Ht1 & Hl1 & Ha1).
    exists evs1. split; [exact Ht1|]. split; lia.
  - destruct (Hm _ _ _ E) as (evs1 & Ht1 & Hl1 & Ha1).
    destruct (catches e).
    + destruct (Hh e _ _ _ H) as (evs2 & Ht2 & Hl2 & Ha2).
      exists (evs1 ++ evs2). rewrite Ht2, Ht1, <- app_assoc.
      split; [reflexivity|].
      rewrite provider_calls_app, agent_calls_app. split; lia.
    + injection H as _ <-. exists evs1. split; [exact Ht1|]. split; lia.
Qed.

Lemma calls_within_time_time W : calls_within 0 0 (time_time W).
Proof. apply calls_within_silent. intros st res st' [= _ <-]. reflexivity. Qed.

Lemma calls_within_uuid4 W : calls_within 0 0 (uuid4 W).
Proof. apply calls_within_silent. intros st res st' [= _ <-]. reflexivity. Qed.

Lemma calls_within_load r : calls_within 0 0 (load r).
Proof.
  apply calls_within_silent. intros st res st'. unfold load.
  destruct (heap st !! r); intros [= _ <-]; reflexivity.
Qed.

Lemma calls_within_store r x : calls_within 0 0 (store r x).
Proof. apply calls_within_silent. intros st res st' [= _ <-]. reflexivity. Qed.

Lemma calls_within_logger_call W name fields :
  calls_within 0 0 (logger_call W name fields).
Proof.
  intros st res st'. unfold logger_call.
  destruct (logger_emit W name fields st); intros [= _ <-].
  - exists []. rewrite app_nil_r. repeat split; reflexivity.
  - exists [EvLog name fields]. split; [reflexivity|]. split; compute; lia.
Qed.

Lemma calls_within_call_agent agent_type agent input_data :
  calls_within 0 1 (call_agent agent_type agent input_data).
Proof.
  intros st res st' [= _ <-]. exists [EvAgent agent_type input_data].
  split; [reflexivity|]. split; compute; lia.
Qed.

Lemma calls_within_call_provider W params : calls_within 1 0 (call_provider W params).
Proof.
  intros st res st' [= _ <-]. exists [EvLLM params].
  split; [reflexivity|]. split; compute; lia.
Qed.

Lemma calls_within_new_AgentOutput W success data error error_code metadata :
  calls_within 0 0 (new_AgentOutput W success data error error_code metadata).
Proof. apply calls_within_silent. intros st res st' [= _ <-]. reflexivity. Qed.

Lemma calls_within_new_AgentInput W user_id conversation_id payload :
  calls_within 0 0 (new_AgentInput W user_id conversation_id payload).
Proof. apply calls_within_silent. intros st res st' [= _ <-]. reflexivity. Qed.

Lemma calls_within_json_loads_py W s : calls_within 0 0 (json_loads_py W s).
Proof.
  unfold json_loads_py. destruct s as [s|].
  - destruct (json_loads W s); [apply calls_within_ret | apply calls_within_raise].
  - apply calls_within_raise.
Qed.

Lemma calls_within_py_get v k dflt : calls_within 0 0 (py_get v k dflt).
Proof. destruct v; first [apply calls_within_ret | apply calls_within_raise]. Qed.

Lemma calls_within_dict_index d k : calls_within 0 0 (dict_index d k).
Proof.
  unfold dict_index.
  destruct (d !! k); [apply calls_within_ret | apply calls_within_raise].
Qed.

Lemma calls_within_unpack_merge a b : calls_within 0 0 (unpack_merge a b).
Proof. destruct b; first [apply calls_within_ret | apply calls_within_raise]. Qed.

Lemma calls_within_AgentRegistry_get registry agent_type :
  calls_within 0 0 (AgentRegistry_get registry agent_type).
Proof.
  unfold AgentRegistry_get.
  destruct agent_type; first [apply calls_within_ret | apply calls_within_raise].
Qed.

Lemma calls_within_routing_map_get intent : calls_within 0 0 (routing_map_get intent).
Proof.
  unfold routing_map_get.
  destruct intent; first [apply calls_within_ret | apply calls_within_raise].
Qed.

Lemma calls_within_call_llm W self messages tools response_format temperature :
  calls_within 1 0 (call_llm W self messages tools response_format temperature).
Proof.
  intros st res st' Hrun.
  destruct (call_llm_trace W self messages tools response_format temperature st)
    as (res0 & st0 & rest & Hrun0 & Htrace & Hp & Ha).
  rewrite Hrun in Hrun0. injection Hrun0 as <- <-.
  eexists. split; [exact Htrace|].
  change (EvLLM ?p :: rest) with ([EvLLM p] ++ rest).
  rewrite provider_calls_app, agent_calls_app, Hp, Ha.
  change (provider_calls [EvLLM (llm_request self messages tools response_format
                                   temperature)]) with 1%nat.
  change (agent_calls [EvLLM (llm_request self messages tools response_format
                                temperature)]) with 0%nat.
  split; lia.
Qed.

Lemma calls_within_analyze_and_route W self input_data :
  calls_within 1 0 (_analyze_and_route W self input_data).
Proof.
  unfold _analyze_and_route. destruct (truthy _).
  - apply (calls_within_mono 0 0); [lia | lia |].
    apply (calls_within_bind 0 0 0 0);
      [apply calls_within_routing_map_get | intros; apply calls_within_ret].
  - apply (calls_within_bind 1 0 0 0); [apply calls_within_call_llm | intros response].
    apply (calls_within_bind 0 0 0 0).
    + destruct (LLMResult.success response); [|apply calls_within_ret].
      apply (calls_within_try 0 0 0 0); [|intros; apply calls_within_ret].
      apply (calls_within_bind 0 0 0 0);
        [apply calls_within_json_loads_py | intros; apply calls_within_ret].
    + intros [decision|]; apply calls_within_ret.
Qed.

Lemma calls_within_route_and_dispatch W self registry r :
  calls_within 1 1 (route_and_dispatch W self registry r).
Proof.
  unfold route_and_dispatch.
  apply (calls_within_bind 0 0 1 1); [apply calls_within_load | intros input_data].
  apply (calls_within_bind 1 0 0 1);
    [apply calls_within_analyze_and_route | intros decision].
  apply (calls_within_bind 0 0 0 1); [apply calls_within_py_get | intros target].
  apply (calls_within_bind 0 0 0 1); [apply calls_within_py_get | intros context].
  apply (calls_within_bind 0 0 0 1); [apply calls_within_unpack_merge | intros merged].
  apply (calls_within_bind 0 0 0 1); [apply calls_within_store | intros _].
  apply (calls_within_bind 0 0 0 1);
    [apply calls_within_AgentRegistry_get | intros [agent|]].
  - apply (calls_within_bind 0 0 0 1); [apply calls_within_load | intros input_data'].
    apply (calls_within_bind 0 1 0 0); [apply calls_within_call_agent | intros result].
    apply (calls_within_bind 0 0 0 0);
      [apply calls_within_time_time | intros; apply calls_within_ret].
  - apply (calls_within_mono 0 0); [lia | lia |].
    apply (calls_within_bind 0 0 0 0);
      [apply calls_within_new_AgentOutput | intros; apply calls_within_ret].
Qed.

Lemma calls_within_process W self registry r :
  calls_within 1 1 (process W self registry r).
Proof.
  unfold process.
  apply (calls_within_bind 0 0 1 1); [apply calls_within_time_time | intros start_time].
  apply (calls_within_try 1 1 0 0).
  - unfold process_try.
    apply (calls_within_bind 1 1 0 0);
      [apply calls_within_route_and_dispatch | intros [out|result]].
    + apply calls_within_ret.
    + unfold log_and_return, log_action.
      apply (calls_within_bind 0 0 0 0); [apply calls_within_time_time | intros now].
      apply (calls_within_bind 0 0 0 0); [apply calls_within_load | intros input_data].
      apply (calls_within_bind 0 0 0 0);
        [apply calls_within_logger_call | intros; apply calls_within_ret].
  - intros e. unfold orchestration_error.
    apply (calls_within_bind 0 0 0 0);
      [apply calls_within_time_time | intros; apply calls_within_new_AgentOutput].
Qed.

(** X8.  One call of [process] makes at most one request to the provider
    and calls at most one agent; it only adds to the trace.  A response
    with [success] true is always the answer of an agent: it is returned
    only after exactly one agent call. *)
Theorem process_call_budget W self registry r st :
  exists out st' evs,
    process W self registry r st = (Ret out, st')
    /\ trace st' = trace st ++ evs
    /\ provider_calls evs <= 1
    /\ agent_calls evs <= 1
    /\ (AgentOutput.success out = true -> agent_calls evs = 1%nat).
Proof.
  destruct (process W self registry r st) as [[out|e] st'] eqn:Hrun.
  2:{ rewrite process_unfold in Hrun.
      unfold try_except, try_except_if in Hrun.
      destruct (process_try _ _ _ _ _ _) as [[o|e0] s0];
        [discriminate Hrun | rewrite orchestration_error_run in Hrun;
                             discriminate Hrun]. }
  destruct (calls_within_process W self registry r _ _ _ Hrun)
    as (evs & Htrace & Hp & Ha).
  exists out, st', evs. repeat (split; [assumption || reflexivity|]).
  intros Hok.
  rewrite process_unfold in Hrun. unfold try_except, try_except_if in Hrun.
  rewrite process_try_unfold in Hrun.
  destruct (heap (advance_clock st) !! r) as [req|] eqn:Hreq.
  2:{ destruct (route_and_dispatch_dangling W self registry r _ Hreq) as (e & He).
      rewrite He, orchestration_error_run in Hrun.
      injection Hrun as <- _. discriminate Hok. }
  destruct (route_and_dispatch W self registry r (advance_clock st))
    as [res1 st1] eqn:Hrd.
  destruct (route_and_dispatch_spec _ _ _ _ _ _ _ _ Hreq Hrd)
    as [(e & -> & _) | (d & ctx & st3 & Hroute & Hctx & _ & _)].
  { rewrite orchestration_error_run in Hrun. injection Hrun as <- _.
    discriminate Hok. }
  rewrite (route_and_dispatch_routed _ _ _ _ _ _ _ _ _ Hreq Hroute Hctx) in Hrd.
  cbn zeta in Hrd.
  destruct (calls_within_analyze_and_route W self req _ _ _ Hroute)
    as (evs1 & Htrace1 & _ & Ha1).
  destruct (hashable _).
  2:{ injection Hrd as <- <-. rewrite orchestration_error_run in Hrun.
      injection Hrun as <- _. discriminate Hok. }
  destruct (match dict_get d "target_agent" (VStr "customer_support") with
            | VStr a => registry !! a
            | _ => None
            end) as [agent|].
  2:{ injection Hrd as <- <-. injection Hrun as <- _. discriminate Hok. }
  destruct (agent _ _) as [result|e].
  2:{ injection Hrd as <- <-. rewrite orchestration_error_run in Hrun.
      injection Hrun as <- _. discriminate Hok. }
  injection Hrd as <- <-.
  erewrite log_and_return_run in Hrun by (cbn; apply lookup_insert_eq).
  destruct (logger_emit W _ _ _).
  { rewrite orchestration_error_run in Hrun. injection Hrun as <- _.
    discriminate Hok. }
  injection Hrun as _ <-. cbn in Htrace.
  rewrite Htrace1, <- !app_assoc in Htrace.
  apply app_inv_head in Htrace. subst evs.
  rewrite agent_calls_app. cbn in Ha1 |- *.
  assert (agent_calls evs1 = 0%nat) as -> by lia. reflexivity.
Qed.

(** ** The workflow engine, continued *)

(** Steps that cannot stop the workflow are run one after the other, each
    with one agent call, and the loop goes on with what follows them. *)
Lemma workflow_loop_prefix W registry workflow_name input_data pre :
  Forall (step_runs registry) pre ->
  forall results context st,
    exists results' context' st1 calls,
      (forall rest,
         workflow_loop W registry workflow_name input_data (pre ++ rest)
           results context st
         = workflow_loop W registry workflow_name input_data rest
             results' context' st1)
      /\ trace st1 = trace st ++ (call_event <$> calls)
      /\ length calls = length pre.
Proof.
  induction 1 as [|step pre Hstep _ IH]; intros results context st.
  - exists results, context, st, []. split; [reflexivity|].
    split; [cbn; rewrite app_nil_r; reflexivity | reflexivity].
  - destruct Hstep as (a & agent & overrides & Hagent & Hreg & Hpayload & Hanswer).
    destruct (Hanswer (step_request W input_data context overrides st)
                (advance_clock (advance_uuids st))) as (result & Hcall & Hgo).
    destruct (IH (results ++ [log_entry (VStr a) result])
                (AgentOutput.data result ∪ context)
                (record_event (EvAgent (VStr a)
                                 (step_request W input_data context overrides st))
                   (advance_clock (advance_uuids st))))
      as (results' & context' & st1 & calls & Hloop & Htrace & Hlen).
    exists results', context', st1,
      ((VStr a, step_request W input_data context overrides st) :: calls).
    split; [|split].
    + intros rest. rewrite <- Hloop. cbn [app].
      rewrite workflow_loop_step, Hagent. cbn [hashable].
      rewrite Hreg, Hpayload. cbn zeta. rewrite Hcall.
      assert (Hcond : negb (AgentOutput.success result)
                      && negb (truthy (dict_get step "continue_on_error" VNone))
                      = false).
      { destruct Hgo as [-> | ->]; [reflexivity | apply andb_false_r]. }
      rewrite Hcond. reflexivity.
    + rewrite Htrace. cbn. rewrite <- app_assoc. reflexivity.
    + cbn. rewrite Hlen. reflexivity.
Qed.



(** X10.  [execute_workflow] has no handler of its own.  After any number
    of steps that ran, a step without an [agent] key raises [KeyError], a
    step whose agent identifier is a list or a dictionary raises
    [TypeError], and a step whose [payload] is not a dictionary raises
    [TypeError]; in each case no agent is called for that step, no response
    is returned and the results of the steps that ran are lost. *)
Theorem workflow_malformed_step_raises W registry workflow_name input_data pre
    step post st :
  Forall (step_runs registry) pre ->
  let steps := pre ++ step :: post in
  (step !! "agent" = None ->
   exists st' calls,
     execute_workflow W registry workflow_name input_data steps st
       = (Raise (Exn KeyError "'agent'"), st')
     /\ trace st' = trace st ++ (call_event <$> calls)
     /\ length calls = length pre)
  /\ (forall agent_type,
        step !! "agent" = Some agent_type ->
        hashable agent_type = false ->
        exists st' calls,
          execute_workflow W registry workflow_name input_data steps st
            = (Raise (unhashable agent_type), st')
          /\ trace st' = trace st ++ (call_event <$> calls)
          /\ length calls = length pre)
  /\ (forall a agent v,
        step !! "agent" = Some (VStr a) ->
        registry !! a = Some agent ->
        step !! "payload" = Some v ->
        (forall overrides, v <> VDict overrides) ->
        exists e st' calls,
          execute_workflow W registry workflow_name input_data steps st
            = (Raise e, st')
          /\ exn_cls e = TypeError
          /\ trace st' = trace st ++ (call_event <$> calls)
          /\ length calls = length pre).
Proof.
  intros Hpre steps. unfold steps, execute_workflow.
  destruct (workflow_loop_prefix W registry workflow_name input_data pre Hpre
              [] (AgentInput.payload input_data) st)
    as (results' & context' & st1 & calls & Hloop & Htrace & Hlen).
  rewrite Hloop. rewrite workflow_loop_step.
  split; [|split].
  - intros ->. exists st1, calls. repeat split; assumption.
  - intros agent_type -> ->. exists st1, calls. repeat split; assumption.
  - intros a agent v -> Hreg Hpayload Hnot. cbn [hashable]. rewrite Hreg.
    unfold dict_get. rewrite Hpayload. cbn [default].
    destruct v as [| | | | |overrides|];
      try (eexists _, st1, calls; repeat split; assumption).
    destruct (Hnot overrides eq_refl).
Qed.

Lemma workflow_malformed_step_raises_witness :
  let W := Sample.world Sample.unreachable Sample.quiet in
  let req := Sample.request {[ "query" := VStr "ibuprofen" ]} in
  let step_a : gmap string val := {[ "agent" := VStr "medicine_search" ]} in
  let step_b : gmap string val := {[ "payload" := VDict ∅ ]} in
  exists st',
    execute_workflow W Sample.registry "search" req [step_a; step_b]
      (Sample.initial req) = (Raise (Exn KeyError "'agent'"), st')
    /\ length (trace st') = 1%nat.
Proof.
  intros W req step_a step_b.
  destruct (workflow_malformed_step_raises W Sample.registry "search" req [step_a]
              step_b [] (Sample.initial req)) as (Hkey & _).
  - constructor; [|constructor].
    exists "medicine_search", (Sample.succeeds {[ "x" := VInt 1 ]}), ∅.
    repeat split. intros input_data st. eexists. split; [reflexivity|].
    left. reflexivity.
  - destruct (Hkey eq_refl) as (st' & calls & Hrun & Htrace & Hlen).
    exists st'. split; [exact Hrun|].
    rewrite Htrace, length_app, length_fmap, Hlen. reflexivity.
Defined.

(** X11.  An exception raised by the agent of a workflow step is not turned
    into a response: [execute_workflow] raises it as it is, right after
    that call, whatever the step's [continue_on_error] says and whatever
    steps follow. *)
Theorem workflow_agent_exception_escapes W registry workflow_name input_data pre
    step post st a agent overrides e :
  Forall (step_runs registry) pre ->
  step !! "agent" = Some (VStr a) ->
  registry !! a = Some agent ->
  dict_get step "payload" (VDict ∅) = VDict overrides ->
  (forall input_data st, agent input_data st = Raise e) ->
  exists st' calls,
    execute_workflow W registry workflow_name input_data (pre ++ step :: post) st
      = (Raise e, st')
    /\ trace st' = trace st ++ (call_event <$> calls)
    /\ length calls = S (length pre).
Proof.
  intros Hpre Hagent Hreg Hpayload Hraise. unfold execute_workflow.
  destruct (workflow_loop_prefix W registry workflow_name input_data pre Hpre
              [] (AgentInput.payload input_data) st)
    as (results' & context' & st1 & calls & Hloop & Htrace & Hlen).
  rewrite Hloop, workflow_loop_step, Hagent. cbn [hashable].
  rewrite Hreg, Hpayload. cbn zeta. rewrite Hraise.
  eexists _, (calls ++ [(VStr a, step_request W input_data context' overrides st1)]).
  split; [reflexivity|]. split.
  - cbn. rewrite Htrace, fmap_app, <- app_assoc. reflexivity.
  - rewrite length_app, Hlen. cbn. lia.
Qed.

Lemma workflow_agent_exception_escapes_witness :
  let W := Sample.world Sample.unreachable Sample.quiet in
  let req := Sample.request {[ "query" := VStr "ibuprofen" ]} in
  let step_a : gmap string val :=
    <["agent" := VStr "compliance_safety"]> {[ "continue_on_error" := VBool true ]} in
  let step_b : gmap string val := {[ "agent" := VStr "customer_support" ]} in
  exists st',
    execute_workflow W Sample.registry "check" req [step_a; step_b]
      (Sample.initial req) = (Raise (Exn (OtherError "TimeoutError") ""), st')
    /\ length (trace st') = 1%nat.
Proof.
  intros W req step_a step_b.
  destruct (workflow_agent_exception_escapes W Sample.registry "check" req []
              step_a [step_b] (Sample.initial req) "compliance_safety"
              Sample.times_out ∅ (Exn (OtherError "TimeoutError") ""))
    as (st' & calls & Hrun & Htrace & Hlen); try reflexivity.
  - constructor.
  - exists st'. split; [exact Hrun|].
    rewrite Htrace, length_app, length_fmap, Hlen. reflexivity.
Defined.

Lemma merge_results_lookup_none context rs k :
  Forall (fun r => AgentOutput.data r !! k = None) rs ->
  merge_results context rs !! k = context !! k.
Proof.
  induction rs as [|r rs IH] using rev_ind; intros Hnone; [reflexivity|].
  apply Forall_app in Hnone as [Hrs Hr]. inversion_clear Hr as [|? ? Hr' _].
  rewrite merge_results_snoc, lookup_union_r by exact Hr'. apply IH, Hrs.
Qed.

Lemma merge_results_lookup_last context rs1 r rs2 k v :
  AgentOutput.data r !! k = Some v ->
  Forall (fun r' => AgentOutput.data r' !! k = None) rs2 ->
  merge_results context (rs1 ++ r :: rs2) !! k = Some v.
Proof.
  intros Hr Hnone.
  assert (Hsplit : merge_results context (rs1 ++ r :: rs2)
                   = merge_results (merge_results context (rs1 ++ [r])) rs2).
  { unfold merge_results. rewrite <- foldl_app, <- app_assoc. reflexivity. }
  rewrite Hsplit, merge_results_lookup_none by exact Hnone.
  rewrite merge_results_snoc. apply lookup_union_Some_l, Hr.
Qed.

(** X12.  The [final_context] of a workflow that ran to its end holds, at
    every key, the value given by the last step whose response data has that
    key, whether that step succeeded or not, and the value of the initial
    payload when no response has the key.  Step overrides never enter it: a
    key that only overrides supply is absent from [final_context]. *)
Theorem workflow_final_context_last_write W registry workflow_name input_data steps
    st out st' :
  execute_workflow W registry workflow_name input_data steps st = (Ret out, st') ->
  AgentOutput.success out = true ->
  exists calls rs final_context,
    AgentOutput.data out !! "final_context" = Some (VDict final_context)
    /\ AgentOutput.data out !! "results" = Some (VList (results_log calls rs))
    /\ length rs = length steps
    /\ length calls = length steps
    /\ (forall k,
          Forall (fun r => AgentOutput.data r !! k = None) rs ->
          final_context !! k = AgentInput.payload input_data !! k)
    /\ (forall k rs1 r rs2 v,
          rs = rs1 ++ r :: rs2 ->
          AgentOutput.data r !! k = Some v ->
          Forall (fun r' => AgentOutput.data r' !! k = None) rs2 ->
          final_context !! k = Some v).
Proof.
  intros Hrun Hok.
  destruct (workflow_loop_completed _ _ _ _ _ _ _ _ _ _ Hrun Hok)
    as (calls & rs & Hlc & Hlr & _ & _ & Hdata & _ & _).
  exists calls, rs, (merge_results (AgentInput.payload input_data) rs).
  rewrite Hdata.
  split; [reflexivity|]. split; [reflexivity|].
  split; [exact Hlr|]. split; [exact Hlc|]. split.
  - intros k. apply merge_results_lookup_none.
  - intros k rs1 r rs2 v -> Hr Hnone. apply merge_results_lookup_last; assumption.
Qed.

Lemma workflow_final_context_last_write_witness :
  let W := Sample.world Sample.unreachable Sample.quiet in
  let req := Sample.request {[ "query" := VStr "ibuprofen" ]} in
  let step_a : gmap string val :=
    <["agent" := VStr "medicine_search"]>
      {[ "payload" := VDict {[ "limit" := VInt 5 ]} ]} in
  exists out st' final_context,
    execute_workflow W Sample.registry "search" req [step_a] (Sample.initial req)
      = (Ret out, st')
    /\ AgentOutput.data out !! "final_context" = Some (VDict final_context).
Proof.
  intros W req step_a.
  destruct (execute_workflow W Sample.registry "search" req [step_a]
              (Sample.initial req)) as [[out|e] st'] eqn:Hrun;
    [|vm_compute in Hrun; discriminate Hrun].
  assert (Hok : AgentOutput.success out = true).
  { vm_compute in Hrun. injection Hrun as <- _. reflexivity. }
  destruct (workflow_final_context_last_write W Sample.registry "search" req
              [step_a] (Sample.initial req) out st' Hrun Hok)
    as (calls & rs & final_context & Hfc & _).
  exists out, st', final_context. split; [reflexivity | exact Hfc].
Defined.

(** X13.  Continue on error, for two steps: the first step's agent reports
    a failure and the step has opted into [continue_on_error].  The second
    step runs all the same, on a payload that holds the data of the failed
    response; the workflow then returns [success] true, with both entries in
    the results log, in order, and the merge of both responses' data as
    [final_context]. *)
Theorem workflow_continue_on_error W registry workflow_name input_data step_a
    step_b st a agent_a overrides_a result_a b agent_b overrides_b result_b :
  step_a !! "agent" = Some (VStr a) ->
  registry !! a = Some agent_a ->
  dict_get step_a "payload" (VDict ∅) = VDict overrides_a ->
  let payload := AgentInput.payload input_data in
  let input_a := step_request W input_data payload overrides_a st in
  let st1 := record_event (EvAgent (VStr a) input_a) (advance_clock (advance_uuids st)) in
  agent_a input_a (advance_clock (advance_uuids st)) = Ret result_a ->
  AgentOutput.success result_a = false ->
  truthy (dict_get step_a "continue_on_error" VNone) = true ->
  step_b !! "agent" = Some (VStr b) ->
  registry !! b = Some agent_b ->
  dict_get step_b "payload" (VDict ∅) = VDict overrides_b ->
  let input_b :=
    step_request W input_data (AgentOutput.data result_a ∪ payload) overrides_b st1 in
  agent_b input_b (advance_clock (advance_uuids st1)) = Ret result_b ->
  AgentOutput.success result_b = true ->
  exists out st',
    execute_workflow W registry workflow_name input_data [step_a; step_b] st
      = (Ret out, st')
    /\ AgentOutput.success out = true
    /\ trace st' = trace st ++ [EvAgent (VStr a) input_a; EvAgent (VStr b) input_b]
    /\ AgentInput.payload input_b
         = overrides_b ∪ (AgentOutput.data result_a ∪ payload)
    /\ AgentOutput.data out =
         <["workflow" := VStr workflow_name]>
         (<["results" := VList [log_entry (VStr a) result_a;
                                 log_entry (VStr b) result_b]]>
         (<["final_context" :=
              VDict (AgentOutput.data result_b ∪ (AgentOutput.data result_a ∪ payload))]>
            ∅)).
Proof.
  intros Ha Hrega Hpa payload input_a st1 Hcalla Hfaila Hconta
         Hb Hregb Hpb input_b Hcallb Hokb.
  unfold execute_workflow. fold payload.
  rewrite workflow_loop_step, Ha. cbn [hashable]. rewrite Hrega, Hpa.
  cbn zeta. fold input_a. rewrite Hcalla, Hfaila, Hconta. cbn [negb andb].
  fold st1.
  rewrite workflow_loop_step, Hb. cbn [hashable]. rewrite Hregb, Hpb.
  cbn zeta. fold input_b. rewrite Hcallb, Hokb. cbn [negb andb app].
  cbn [workflow_loop]. rewrite new_AgentOutput_run.
  eexists _, _. split; [reflexivity|]. split; [reflexivity|].
  split; [cbn; rewrite <- app_assoc; reflexivity|].
  split; reflexivity.
Qed.

Lemma workflow_continue_on_error_witness :
  let W := Sample.world Sample.unreachable Sample.quiet in
  let req := Sample.request {[ "items" := VList [] ]} in
  let step_a : gmap string val :=
    <["agent" := VStr "order_processing"]> {[ "continue_on_error" := VBool true ]} in
  let step_b : gmap string val := {[ "agent" := VStr "customer_support" ]} in
  exists out st',
    execute_workflow W Sample.registry "checkout" req [step_a; step_b]
      (Sample.initial req) = (Ret out, st')
    /\ AgentOutput.success out = true
    /\ length (trace st') = 2%nat.
Proof.
  intros W req step_a step_b.
  destruct (workflow_continue_on_error W Sample.registry "checkout" req step_a step_b
              (Sample.initial req)
              "order_processing" Sample.fails ∅
              (AgentOutput.mk false "out" 0 ∅ (Some "no stock") (Some "OUT_OF_STOCK")
                 ∅ 1 false)
              "customer_support" (Sample.succeeds {[ "response" := VStr "hello" ]}) ∅
              (AgentOutput.mk true "out" 0 {[ "response" := VStr "hello" ]} None None
                 ∅ 1 false))
    as (out & st' & Hrun & Hok & Htrace & _); try reflexivity.
  exists out, st'. split; [exact Hrun|]. split; [exact Hok|].
  rewrite Htrace. reflexivity.
Defined.

(** ** The registry *)

Lemma registry_get_register agents k agent k' :
  AgentRegistry.get (AgentRegistry.register k agent agents) k'
    = if decide (k = k') then Some agent else AgentRegistry.get agents k'.
Proof.
  induction agents as [|[k0 v0] agents IH]; cbn.
  - destruct (String.eqb_spec k k'); destruct (decide (k = k')); congruence.
  - destruct (String.eqb_spec k0 k) as [->|Hne0]; cbn.
    + destruct (String.eqb_spec k k'); destruct (decide (k = k')); congruence.
    + destruct (String.eqb_spec k0 k') as [->|Hne1].
      * destruct (decide (k = k')); congruence.
      * exact IH.
Qed.

Lemma registry_as_map_lookup agents k :
  AgentRegistry.as_map agents !! k = AgentRegistry.get agents k.
Proof.
  unfold AgentRegistry.as_map.
  induction agents as [|[k0 v0] agents IH]; cbn.
  - apply lookup_empty.
  - destruct (String.eqb_spec k0 k) as [->|Hne].
    + apply lookup_insert_eq.
    + rewrite lookup_insert_ne by exact Hne. exact IH.
Qed.

(** X14.  Registering and looking up: after [register(id, agent)], [get(id)]
    returns that agent, whatever was registered under the identifier
    before, and [get] of any other identifier returns what it returned
    before.  The orchestrator's lookup of a string identifier returns the
    same agent, and never raises. *)
Theorem registry_register_then_get agents k agent :
  AgentRegistry.get (AgentRegistry.register k agent agents) k = Some agent
  /\ (forall previous,
        AgentRegistry.get
          (AgentRegistry.register k agent (AgentRegistry.register k previous agents)) k
        = Some agent)
  /\ (forall k', k' <> k ->
        AgentRegistry.get (AgentRegistry.register k agent agents) k'
        = AgentRegistry.get agents k')
  /\ (forall k' st,
        AgentRegistry_get
          (AgentRegistry.as_map (AgentRegistry.register k agent agents)) (VStr k') st
        = (Ret (AgentRegistry.get (AgentRegistry.register k agent agents) k'), st)).
Proof.
  split; [|split; [|split]].
  - rewrite registry_get_register. destruct (decide (k = k)); congruence.
  - intros previous. rewrite registry_get_register.
    destruct (decide (k = k)); congruence.
  - intros k' Hne. rewrite registry_get_register.
    destruct (decide (k = k')); congruence.
  - intros k' st. unfold AgentRegistry_get. cbn [hashable]. unfold ret.
    rewrite registry_as_map_lookup. reflexivity.
Qed.

Lemma registry_list_agents_register agents k agent :
  AgentRegistry.list_agents (AgentRegistry.register k agent agents)
    = if decide (k ∈ AgentRegistry.list_agents agents)
      then AgentRegistry.list_agents agents
      else AgentRegistry.list_agents agents ++ [k].
Proof.
  unfold AgentRegistry.list_agents.
  induction agents as [|[k0 v0] agents IH]; cbn.
  - destruct (decide (k ∈ [])) as [Hin|_]; [|reflexivity].
    apply elem_of_nil in Hin. destruct Hin.
  - destruct (String.eqb_spec k0 k) as [->|Hne]; cbn.
    + destruct (decide (k ∈ k :: agents.*1)) as [_|Hnin]; [reflexivity|].
      destruct Hnin. apply list_elem_of_here.
    + rewrite IH.
      destruct (decide (k ∈ agents.*1)) as [Hin|Hnin].
      * destruct (decide (k ∈ k0 :: agents.*1)) as [_|Hnin']; [reflexivity|].
        destruct Hnin'. apply list_elem_of_further, Hin.
      * destruct (decide (k ∈ k0 :: agents.*1)) as [Hin'|_]; [|reflexivity].
        apply elem_of_cons in Hin' as [->|Hin']; [congruence | contradiction].
Qed.

(** X15.  [list_agents] lists every registered identifier once, in the
    order of first registration: registering an identifier that is already
    listed leaves the list as it is, registering a new one adds it at the
    end, and the list never holds an identifier twice.  An identifier is
    listed exactly when [get] finds an agent for it. *)
Theorem registry_list_agents agents k agent :
  NoDup (AgentRegistry.list_agents agents) ->
  NoDup (AgentRegistry.list_agents (AgentRegistry.register k agent agents))
  /\ (k ∈ AgentRegistry.list_agents agents ->
      AgentRegistry.list_agents (AgentRegistry.register k agent agents)
      = AgentRegistry.list_agents agents)
  /\ (k ∉ AgentRegistry.list_agents agents ->
      AgentRegistry.list_agents (AgentRegistry.register k agent agents)
      = AgentRegistry.list_agents agents ++ [k])
  /\ (forall k', k' ∈ AgentRegistry.list_agents agents
                 <-> is_Some (AgentRegistry.get agents k')).
Proof.
  intros Hnd. rewrite registry_list_agents_register.
  split; [|split; [|split]].
  - destruct (decide _) as [_|Hnin]; [exact Hnd|].
    apply NoDup_app. split; [exact Hnd|]. split.
    + intros x Hx Hin. apply list_elem_of_singleton in Hin. congruence.
    + apply NoDup_singleton.
  - intros Hin. destruct (decide _); [reflexivity | contradiction].
  - intros Hnin. destruct (decide _); [contradiction | reflexivity].
  - intros k'. rewrite <- registry_as_map_lookup.
    unfold AgentRegistry.as_map, AgentRegistry.list_agents.
    rewrite <- elem_of_dom, dom_list_to_map_L, elem_of_list_to_set.
    reflexivity.
Qed.

Lemma registry_list_agents_witness :
  NoDup (AgentRegistry.list_agents
           (AgentRegistry.register "customer_support" Sample.fails
              (AgentRegistry.register "customer_support"
                 (Sample.succeeds ∅) AgentRegistry.empty))).
Proof.
  apply (registry_list_agents
           (AgentRegistry.register "customer_support" (Sample.succeeds ∅)
              AgentRegistry.empty) "customer_support" Sample.fails).
  cbn. apply NoDup_singleton.
Defined.

Lemma registry_register_id agents k agent :
  AgentRegistry.get agents k = Some agent ->
  AgentRegistry.register k agent agents = agents.
Proof.
  induction agents as [|[k0 v0] agents IH]; cbn; [discriminate|].
  destruct (String.eqb_spec k0 k) as [->|Hne].
  - intros [= ->]. reflexivity.
  - intros Hget. rewrite (IH Hget). reflexivity.
Qed.

Lemma register_agents_get agents registry k agent :
  (k, agent) ∈ [("orchestrator", Agents.orchestrator agents);
                ("customer_support", Agents.customer_support agents);
                ("medicine_search", Agents.medicine_search agents);
                ("prescription_validation", Agents.prescription_validation agents);
                ("order_processing", Agents.order_processing agents);
                ("compliance_safety", Agents.compliance_safety agents)] ->
  AgentRegistry.get (register_agents agents registry) k = Some agent.
Proof.
  intros Hin. unfold register_agents. cbn zeta.
  rewrite !registry_get_register.
  repeat (apply elem_of_cons in Hin as [[= -> ->]|Hin]; [reflexivity|]).
  apply elem_of_nil in Hin. destruct Hin.
Qed.

(** X16.  [register_agents] registers the six agents of the package under
    their identifiers, in this order, on top of whatever the registry held:
    afterwards [get] returns each of them.  Running it a second time
    changes nothing. *)
Theorem register_agents_idempotent agents registry :
  let registered := register_agents agents registry in
  register_agents agents registered = registered
  /\ AgentRegistry.get registered "orchestrator" = Some (Agents.orchestrator agents)
  /\ AgentRegistry.get registered "customer_support"
       = Some (Agents.customer_support agents)
  /\ AgentRegistry.get registered "medicine_search"
       = Some (Agents.medicine_search agents)
  /\ AgentRegistry.get registered "prescription_validation"
       = Some (Agents.prescription_validation agents)
  /\ AgentRegistry.get registered "order_processing"
       = Some (Agents.order_processing agents)
  /\ AgentRegistry.get registered "compliance_safety"
       = Some (Agents.compliance_safety agents)
  /\ AgentRegistry.list_agents (register_agents agents AgentRegistry.empty)
       = ["orchestrator"; "customer_support"; "medicine_search";
          "prescription_validation"; "order_processing"; "compliance_safety"].
Proof.
  cbn zeta.
  pose proof (register_agents_get agents registry) as Hget.
  split.
  { unfold register_agents at 1. cbn zeta.
    rewrite (registry_register_id _ "orchestrator")
      by (apply Hget; repeat constructor).
    rewrite (registry_register_id _ "customer_support")
      by (apply Hget; repeat constructor).
    rewrite (registry_register_id _ "medicine_search")
      by (apply Hget; repeat constructor).
    rewrite (registry_register_id _ "prescription_validation")
      by (apply Hget; repeat constructor).
    rewrite (registry_register_id _ "order_processing")
      by (apply Hget; repeat constructor).
    apply registry_register_id, Hget. repeat constructor. }
  repeat (split; [apply Hget; repeat constructor|]).
  reflexivity.
Qed.

Lemma routing_map_targets s target :
  routing_map !! s = Some target ->
  (s = "payment" /\ target = "payment")
  \/ (s = "track_delivery" /\ target = "delivery")
  \/ (s <> "payment" /\ s <> "track_delivery"
      /\ target ∈ ["medicine_search"; "prescription_validation";
                   "customer_support"; "order_processing"; "compliance_safety"]).
Proof.
  unfold routing_map. intros H.
  repeat (apply lookup_insert_Some in H as [[<- <-]|[? H]];
          [first [ left; split; reflexivity
                 | right; left; split; reflexivity
                 | right; right; split; [discriminate|]; split; [discriminate|];
                   repeat constructor ]|]).
  rewrite lookup_empty in H. discriminate H.
Qed.

(** X17.  The static intent table and the start-up registration do not
    cover each other.  With the registry that [register_agents] fills at
    start-up, the intents [payment] and [track_delivery] route to the
    targets [payment] and [delivery], which are never registered: [process]
    answers them with [AGENT_NOT_FOUND], in every world and without calling
    any agent or the model.  Every other truthy, hashable intent, listed in
    the table or not, routes to a registered agent. *)
Theorem startup_registry_routing_gaps W self agents r st req :
  heap st !! r = Some req ->
  (forall intent,
     AgentInput.payload req !! "intent" = Some (VStr intent) ->
     intent = "payment" \/ intent = "track_delivery" ->
     exists out st',
       process W self (startup_registry agents) r st = (Ret out, st')
       /\ AgentOutput.success out = false
       /\ AgentOutput.error_code out = Some "AGENT_NOT_FOUND"
       /\ AgentOutput.error out
            = Some ("Agent " +:+ static_table_image (VStr intent) +:+ " not found")
       /\ trace st' = trace st)
  /\ (forall intent,
        truthy intent = true ->
        hashable intent = true ->
        intent <> VStr "payment" ->
        intent <> VStr "track_delivery" ->
        is_Some (startup_registry agents !! static_table_image intent)).
Proof.
  intros Hreq. split.
  - intros intent Hintent Hgap.
    assert (Htruthy : truthy (VStr intent) = true)
      by (destruct Hgap as [-> | ->]; reflexivity).
    pose proof (analyze_explicit_intent W self req (VStr intent) (advance_clock st)
                  Hintent Htruthy eq_refl) as Hroute.
    assert (Hreq0 : heap (advance_clock st) !! r = Some req) by exact Hreq.
    pose proof (route_and_dispatch_routed W self (startup_registry agents) r _ req
                  _ ∅ _ Hreq0 Hroute eq_refl) as Hrd.
    cbn zeta in Hrd.
    assert (Htarget :
      dict_get
        (<["target_agent" := VStr (static_table_image (VStr intent))]>
         (<["reasoning" := VStr ("Explicit intent: " +:+ py_str W (VStr intent))]>
         (<["context_to_pass" := VDict ∅]> (<["priority" := VStr "normal"]> ∅))))
        "target_agent" (VStr "customer_support")
      = VStr (static_table_image (VStr intent))).
    { unfold dict_get. rewrite lookup_insert_eq. reflexivity. }
    rewrite Htarget in Hrd. cbn [hashable] in Hrd.
    assert (Hnone : startup_registry agents !! static_table_image (VStr intent) = None).
    { unfold startup_registry. rewrite registry_as_map_lookup.
      destruct Hgap as [-> | ->]; reflexivity. }
    rewrite Hnone in Hrd.
    eexists _, _. split.
    { rewrite process_unfold. apply try_except_Ret.
      rewrite process_try_unfold, Hrd. reflexivity. }
    repeat split.
  - intros intent Htruthy Hhash Hp Ht.
    unfold startup_registry. rewrite registry_as_map_lookup.
    assert (Hin : static_table_image intent
                    ∈ ["medicine_search"; "prescription_validation";
                       "customer_support"; "order_processing"; "compliance_safety"]).
    { destruct intent as [| | |s| | |]; try solve [cbn; repeat constructor].
      cbn. destruct (routing_map !! s) as [target|] eqn:Hs;
        [|cbn; repeat constructor].
      destruct (routing_map_targets s target Hs)
        as [[-> _]|[[-> _]|(_ & _ & Hin)]]; [congruence | congruence | exact Hin]. }
    repeat (apply elem_of_cons in Hin as [->|Hin];
            [erewrite register_agents_get; [eauto | repeat constructor]|]).
    apply elem_of_nil in Hin. destruct Hin.
Qed.

Lemma startup_registry_routing_gaps_witness :
  let W := Sample.world Sample.unreachable Sample.quiet in
  let req := Sample.request {[ "intent" := VStr "track_delivery" ]} in
  exists out st',
    process W Sample.orchestrator (startup_registry SampleAgents.agents) 0
      (Sample.initial req) = (Ret out, st')
    /\ AgentOutput.error out = Some "Agent delivery not found".
Proof.
  intros W req.
  destruct (startup_registry_routing_gaps W Sample.orchestrator SampleAgents.agents
              0 (Sample.initial req) req eq_refl) as (Hgap & _).
  destruct (Hgap "track_delivery" eq_refl (or_intror eq_refl))
    as (out & st' & Hrun & _ & _ & Herr & _).
  exists out, st'. split; [exact Hrun | exact Herr].
Defined.

(** ** Dispatch, continued *)

(** What [process] adds to the trace once routing has produced a decision:
    no request to the provider, at most a call to the decision's target on
    the request with the merged payload, and log records. *)
Lemma process_after_route W self registry r st req d ctx st1 :
  heap st !! r = Some req ->
  _analyze_and_route W self req (advance_clock st) = (Ret (VDict d), st1) ->
  dict_get d "context_to_pass" (VDict ∅) = VDict ctx ->
  let target := dict_get d "target_agent" (VStr "customer_support") in
  let req' := AgentInput.set_payload (ctx ∪ AgentInput.payload req) req in
  exists out st' evs,
    process W self registry r st = (Ret out, st')
    /\ trace st' = trace st1 ++ evs
    /\ provider_calls evs = 0%nat
    /\ agent_calls evs <= 1
    /\ Forall (fun ev => is_agent_call ev = true -> ev = EvAgent target req') evs.
Proof.
  intros Hreq Hroute Hctx target req'.
  assert (Hreq0 : heap (advance_clock st) !! r = Some req) by exact Hreq.
  pose proof (route_and_dispatch_routed W self registry r _ req d ctx st1
                Hreq0 Hroute Hctx) as Hrd.
  cbn zeta in Hrd. fold target in Hrd. fold req' in Hrd.
  rewrite process_unfold. unfold try_except, try_except_if.
  rewrite process_try_unfold.
  destruct (hashable target).
  2:{ rewrite Hrd, orchestration_error_run. eexists _, _, [].
      split; [reflexivity|]. split; [cbn; rewrite app_nil_r; reflexivity|].
      repeat split; [cbn; lia | constructor]. }
  destruct (match target with VStr a => registry !! a | _ => None end) as [agent|].
  2:{ rewrite Hrd. eexists _, _, [].
      split; [reflexivity|]. split; [cbn; rewrite app_nil_r; reflexivity|].
      repeat split; [cbn; lia | constructor]. }
  destruct (agent req' _) as [result|e].
  2:{ rewrite Hrd, orchestration_error_run. eexists _, _, [EvAgent target req'].
      split; [reflexivity|]. split; [reflexivity|].
      split; [reflexivity|]. split; [compute; lia|].
      repeat constructor. }
  rewrite Hrd.
  erewrite log_and_return_run by (cbn; apply lookup_insert_eq).
  destruct (logger_emit W _ _ _).
  - rewrite orchestration_error_run. eexists _, _, [EvAgent target req'].
    split; [reflexivity|]. split; [reflexivity|].
    split; [reflexivity|]. split; [compute; lia|].
    repeat constructor.
  - eexists _, _, [EvAgent target req'; EvLog _ _].
    split; [reflexivity|]. split; [cbn; rewrite <- app_assoc; reflexivity|].
    split; [reflexivity|]. split; [compute; lia|].
    constructor; [reflexivity|]. constructor; [discriminate|constructor].
Qed.

Lemma process_explicit_intent_offline_aux W self registry r st req intent :
  heap st !! r = Some req ->
  AgentInput.payload req !! "intent" = Some intent ->
  truthy intent = true ->
  hashable intent = true ->
  exists out st' evs,
    process W self registry r st = (Ret out, st')
    /\ trace st' = trace st ++ evs
    /\ provider_calls evs = 0%nat
    /\ agent_calls evs <= 1
    /\ Forall (fun ev => is_agent_call ev = true ->
                         ev = EvAgent (VStr (static_table_image intent)) req) evs.
Proof.
  intros Hreq Hintent Htruthy Hhash.
  pose proof (analyze_explicit_intent W self req intent (advance_clock st)
                Hintent Htruthy Hhash) as Hroute.
  destruct (process_after_route W self registry r st req _ ∅ _ Hreq Hroute eq_refl)
    as (out & st' & evs & Hrun & Htrace & Hp & Ha & Hcalls).
  exists out, st', evs. split; [exact Hrun|]. split; [exact Htrace|].
  split; [exact Hp|]. split; [exact Ha|].
  eapply Forall_impl; [exact Hcalls|]. cbn beta.
  intros ev Hev Hcall. rewrite (Hev Hcall). f_equal.
  destruct req. unfold AgentInput.set_payload. cbn. f_equal.
  apply (left_id_L ∅ (∪)).
Qed.

(** X18.  End to end on an explicit intent.  When the payload of the
    request carries a truthy, hashable intent, [process] never sends a
    request to the provider, whatever the registry and the agents do; if it
    calls an agent, it is the one the static table gives for the intent, and
    the request that agent receives is the caller's, payload unchanged. *)
Theorem process_explicit_intent_offline W self registry r st req intent :
  heap st !! r = Some req ->
  AgentInput.payload req !! "intent" = Some intent ->
  truthy intent = true ->
  hashable intent = true ->
  exists out st' evs,
    process W self registry r st = (Ret out, st')
    /\ trace st' = trace st ++ evs
    /\ provider_calls evs = 0%nat
    /\ agent_calls evs <= 1
    /\ Forall (fun ev => is_agent_call ev = true ->
                         ev = EvAgent (VStr (static_table_image intent)) req) evs.
Proof. apply process_explicit_intent_offline_aux. Qed.

Lemma process_explicit_intent_offline_witness :
  let W := Sample.world Sample.unreachable Sample.quiet in
  let req := Sample.request {[ "intent" := VStr "search_medicine" ]} in
  exists out st' evs,
    process W Sample.orchestrator Sample.registry 0 (Sample.initial req) = (Ret out, st')
    /\ trace st' = evs
    /\ provider_calls evs = 0%nat.
Proof.
  intros W req.
  destruct (process_explicit_intent_offline W Sample.orchestrator Sample.registry 0
              (Sample.initial req) req (VStr "search_medicine"))
    as (out & st' & evs & Hrun & Htrace & Hp & _); try reflexivity.
  exists out, st', evs. split; [exact Hrun|]. split; [exact Htrace | exact Hp].
Defined.

(** ** The chat endpoint *)

(** [send_message] for an authenticated user and a context that is a
    dictionary: the orchestrator is called on a new request object. *)
Lemma send_message_run F W self registry request current_user uid context st :
  current_user !! "id" = Some (VStr uid) ->
  ChatMessageRequest.context request = Some context ->
  send_message F W self registry request current_user st =
    match process W self registry (chat_ref st)
            (chat_state W request (Some uid) context st) with
    | (Ret result, st1) =>
        if negb (AgentOutput.success result) then
          (Raise (http_exception 500
                    (str_or (AgentOutput.error result) "Failed to process message")),
           st1)
        else chat_response F W request result st1
    | (Raise e, st1) => (Raise e, st1)
    end.
Proof.
  intros Hid Hcontext. unfold send_message, dict_index. rewrite Hid, Hcontext.
  unfold bind at 1, ret at 1. cbn [unpack_merge].
  unfold bind at 1, ret at 1. cbn [new_AgentInput_checked].
  unfold bind at 1. rewrite new_AgentInput_run.
  unfold bind at 1, alloc at 1. cbn zeta. unfold bind at 1.
  change (set_heap _ (advance_clock (advance_uuids st)))
    with (chat_state W request (Some uid) context st).
  change (fresh (dom (heap (advance_clock (advance_uuids st))))) with (chat_ref st).
  destruct (process W self registry (chat_ref st) _) as [[result|e] st1];
    [|reflexivity].
  destruct (negb (AgentOutput.success result)); reflexivity.
Qed.


Lemma process_returns W self registry r st :
  exists out st', process W self registry r st = (Ret out, st').
Proof.
  rewrite process_unfold. unfold try_except, try_except_if.
  destruct (process_try _ _ _ _ _ _) as [[out|e] st1].
  - eauto.
  - rewrite orchestration_error_run. eauto.
Qed.

(** X19.  For an authenticated user and a context that is a dictionary,
    [send_message] hands the orchestrator a new request object and never
    returns a response built from a failed result: whenever the
    orchestrator's response has [success] false, the endpoint raises
    [HTTPException] with status 500, and the detail is never empty: it is
    the response's error when that is a non-empty string and the text
    [Failed to process message] when the error is missing or empty. *)
Theorem send_message_failure_is_http_500 F W self registry request
    current_user uid context st :
  current_user !! "id" = Some (VStr uid) ->
  ChatMessageRequest.context request = Some context ->
  exists result st1,
    process W self registry (chat_ref st) (chat_state W request (Some uid) context st)
      = (Ret result, st1)
    /\ heap st !! chat_ref st = None
    /\ (AgentOutput.success result = false ->
        exists detail,
          send_message F W self registry request current_user st
            = (Raise (http_exception 500 detail), st1)
          /\ detail <> ""
          /\ (AgentOutput.error result = Some detail
              \/ (detail = "Failed to process message"
                  /\ (AgentOutput.error result = None
                      \/ AgentOutput.error result = Some ""))))
    /\ (AgentOutput.success result = true ->
        send_message F W self registry request current_user st
          = chat_response F W request result st1).
Proof.
  intros Hid Hcontext.
  destruct (process_returns W self registry (chat_ref st)
              (chat_state W request (Some uid) context st)) as (result & st1 & Hrun).
  exists result, st1. split; [exact Hrun|]. split.
  { apply not_elem_of_dom. unfold chat_ref. apply is_fresh. }
  rewrite (send_message_run _ _ _ _ _ _ _ _ _ Hid Hcontext), Hrun.
  split.
  - intros ->. cbn [negb]. eexists. split; [reflexivity|].
    unfold str_or. destruct (AgentOutput.error result) as [err|].
    + destruct err as [|c err]; cbn.
      * split; [discriminate|]. right. split; [reflexivity|]. right. reflexivity.
      * split; [discriminate|]. left. reflexivity.
    + split; [discriminate|]. right. split; [reflexivity|]. left. reflexivity.
  - intros ->. reflexivity.
Qed.

Lemma send_message_failure_is_http_500_witness :
  let W := Sample.world Sample.unreachable Sample.quiet in
  let request :=
    ChatMessageRequest.mk "check this" None (Some {[ "intent" := VStr "safety_check" ]}) in
  let current_user : gmap string val := {[ "id" := VStr "u1" ]} in
  exists st',
    send_message SampleChat.framework W Sample.orchestrator Sample.registry request
      current_user (State 0 0 [] ∅)
    = (Raise (http_exception 500 "Failed to process message"), st').
Proof.
  intros W request current_user.
  destruct (send_message_failure_is_http_500 SampleChat.framework W
              Sample.orchestrator Sample.registry request current_user "u1"
              {[ "intent" := VStr "safety_check" ]} (State 0 0 [] ∅) eq_refl eq_refl)
    as (result & st1 & Hrun & _ & Hfail & _).
  assert (Hres : AgentOutput.success result = false
                 /\ AgentOutput.error result = Some "").
  { vm_compute in Hrun. injection Hrun as <- _. split; reflexivity. }
  destruct Hres as [Hs He].
  destruct (Hfail Hs) as (detail & Hsend & Hne & [Herr | [-> _]]).
  - rewrite He in Herr. injection Herr as <-. destruct Hne. reflexivity.
  - exists st1. exact Hsend.
Defined.


